(* ===== verification/_CoqProject ===== *)
-Q . S2P
PyPrelude.v
Regex.v
RegexSpec.v
Clean.v
Idempotence.v
CleanData.v
Prompt.v
Services.v
Chunker.v
VectorStore.v
SpecServices.v
Pipeline.v
App.v
AppRuns.v
