(* ===== verification/PyPrelude.v ===== *)
(** * University_Chatbot: a verification development

    The repository is a retrieval-augmented chat assistant written in
    Python, in two files:

    - [src/clean_data.py]: [clean_text] normalises a document with three
      calls of Python's [re.sub] (remove [<...>] tags, remove lines that
      hold only a number, collapse runs of three or more newlines) and a
      final [str.strip]; [main] applies it to every [.txt] file of
      [data/], writing the result under [data_clean/] and catching the
      error of each file on its own.
    - [src/app.py]: a Streamlit script that Streamlit re-runs from the
      top on every interaction.  It stops until an API key is entered,
      opens the persisted Chroma store if its directory exists and else
      builds it ([load_data]: load the cleaned corpus, split it, embed
      and persist it), then answers the chat input by the chain
      retriever -> prompt template -> chat model -> string, appending the
      user turn and then the answer to [st.session_state.messages].

    The two programs meet only through [data_clean/]: [clean_data.py]
    writes it, [load_data] reads it.

    ** Files of the development (in dependency order)

    - [PyPrelude] (this file, Module [PyPrelude], exported to every
      file that requires it): the text type (Python [str] restricted to
      code points U+0000..U+00FF, one [ascii] each), Python's whitespace
      and decimal-digit predicates on that range, the [result] type of a
      call that may raise, with stdpp's monad notation, the relation
      [deletes] (a string obtained by deleting characters of a class),
      the hint database [py] and shared tactics.
    - [Regex] (Module [Regex]): the part of Python's [re] the code uses:
      character classes, greedy repetition [{m,}], the MULTILINE anchors
      [^] and [$], the backtracking matcher [match_here] in CPython's
      priority order, [re.sub] ([sub_from], leftmost, non-overlapping,
      left to right, with the 3.7+ treatment of empty matches), and
      [re_search], a checker the properties of [clean_text] are stated
      with ([src/] never calls [re.search]).
    - [RegexSpec] (Module [RegexSpec]): a declarative semantics of the
      patterns ([matches], one inference rule per item, no order among
      matches); [match_here] is sound and complete for it, and
      [re_search] holds exactly when a match starts at some position.
    - [Clean] (Module [Clean]): [clean_data.clean_text]: the three
      patterns, [clean_text], and one-pass reference functions
      ([strip_tags], [collapse_newlines], [number_line_at]) that each
      [re.sub] call is proved equal; what the output can and cannot
      contain; the examples of the specification.
    - [Idempotence] (Module [Idempotence]): [clean_text] is idempotent,
      as the specification requires.  The hard part is that no line
      made only of a number survives: it is proved on a line view of the
      pattern ([lline], [line_free]) that the [re.sub] scan, the newline
      collapse and [strip] all preserve.
    - [CleanData] (Module [CleanData]): [clean_data.main]: the two
      directories as [gmap]s of entries, the listing order as an input,
      [read_file]/[write_file] with their [OSError]s, the per-file
      [try]/[except] as a log of events; what a run leaves, the log and
      the errors ([main_log]: one event per file, fixed by the
      directories before the run, an error of one file never affecting
      another), and that a second run changes nothing.
    - [Prompt] (Module [Prompt]): the template of [app.py], Python's
      [str.format] ([format], a small automaton with its [KeyError] and
      [IndexError] and [ValueError]) and [repr] of the retrieved
      [Document] list, which is what the chain inserts as [{context}].
      Only whole-name fields are parsed: conversions, format specs,
      attribute and index access are not modelled, which is enough for
      the one template of [app.py].
    - [Services] (Module [Services]): the type class of the LangChain,
      Mistral and Chroma operations the script calls, with the errors
      they raise and the laws the script relies on.  [App] is proved
      against this interface.
    - [Chunker], [VectorStore]: the splitter and the similarity search
      as the specification describes them (the library code is not in
      the repository; these definitions are modelled from the
      specification, not from [src/]): fixed windows of 1000 characters overlapping by
      200, top-[k] by squared Euclidean distance.  Every chunk is a
      piece ([substring], Python's [in]) of its document and keeps its
      metadata; a search returns records of the store.
    - [SpecServices]: two instances of [Services] built from them, one
      where a failed build leaves no store (the specification) and one
      where it leaves an empty collection in [DB_PATH] (Chroma).
    - [Pipeline]: the hand-off through [data_clean/]: the documents the
      loader of [app.py] reads from a directory [clean_data.py] created
      are the cleaned source files, already fixed points of
      [clean_text]; and, composing the loader, the splitter, the index
      and the search of [SpecServices], every document retrieved for a
      prompt is a piece of the cleaned text of a listed source file that
      names that file as its source.
    - [App] (Module [App], Section [Script] over any [Services]): one
      run of the script is [script inp], a state-and-exit monad [M] over
      the state that outlives a run ([DATA_PATH], [DB_PATH], the
      environment key, the [st.cache_resource] cache of [load_data] and
      [st.session_state.messages]); it records the page elements it
      draws ([st.set_page_config] first, the spinner of [load_data]
      when it builds) and ends normally, at [st.stop()] or with an
      exception.  One
      definition per block of the script: [sidebar], [load_data],
      [open_vector_db], [init_messages], [show_history], [handle_input],
      [answer].  [lstep] labels each run with how it ended and adds the
      changes of the directories made outside the program; [reach]
      counts the runs that raised.  Theorems: the key gate, a turn
      answered and a turn that raises, the history invariant over every
      reachable state (no more unanswered questions than runs that
      raised), the store frame, the cached store after [DB_PATH] is
      deleted, the first build, a failed build that persists, missing
      data; the refinement of each run by the session specification
      [session_run] for the chain of the store it answered from
      ([current_store]): a question with that chain's answer when the run
      ends normally, a question alone when the chain raised; and
      progress: wherever a store can be had and the chain answers, one
      run appends the question and the current store's answer
      ([store_available]).
    - [AppRuns]: the script run on concrete services and states, which
      instantiates every theorem of [App] that has hypotheses.

    ** Modelling choices

    - Text is [list ascii]: a Rocq [ascii] is a code point below 256.  On
      that range Python's [\s] and [str.isspace] hold for 9-13, 28-32,
      133 and 160, [\d] for 48-57, and [str.isprintable] for 32-126 and
      161-255 except 173 (checked against CPython's tables); code points
      above 255 are not modelled.
    - Exceptions are values of [result E A]; the exception types are
      those of the component ([os_error], [format_error], [app_error]).
    - Fuel: [sub_from] gets [S (length s)] steps, one per position, and
      the window loop of [Chunker] [length s] steps; both are proved
      enough ([re_sub_fuel], [windows_fuel_enough]): more fuel gives
      the same result, so the fuel never cuts a computation short.

    ** Not modelled

    - The hosted services (Mistral embeddings and chat model) are known
      only through their results and errors; Chroma's on-disk format,
      LangChain's separator-driven splitting and Streamlit's rendering
      are library code outside the repository.  Page elements are
      recorded in the order they are drawn, not rendered: the page icon
      (a code point above U+00FF) is left out of [st.set_page_config],
      and the spinner is recorded when its block is entered, not
      removed when the block ends.
    - The imports and the [if __name__ == "__main__": main()] guard of
      [clean_data.py] are not modelled: they run [main] as a script
      and have no behaviour of their own.
    - [print] output of [clean_data.main] is abstracted to events, and
      UTF-8 decoding with [errors="ignore"] to the decoded text.
    - The constructors [MistralAIEmbeddings(...)], [Chroma(...)] on an
      existing [DB_PATH] and [ChatMistralAI(...)] are taken not to
      raise; the loader of the specification, unlike [DirectoryLoader],
      does not skip hidden files; [os.makedirs] is taken not to fail.
    - Concurrent reruns of the script and two servers racing on
      [DB_PATH] are outside the model: a run is atomic. *)

From stdpp Require Export base list strings relations.
From Stdlib Require Export Ascii.

Module PyPrelude.

Declare Scope py_scope.
Delimit Scope py_scope with py.

(** Python [str] values over code points U+0000..U+00FF. *)
Abbreviation text := (list ascii).

(** A text literal written as a Rocq string. *)
Notation "⟪ s ⟫" := (String.list_ascii_of_string s%string)
  (format "⟪ s ⟫") : py_scope.

Abbreviation nl := "010"%char.

(** ** Python character predicates on code points below 256 *)

(** [str.isspace] and the [\s] class of [re] for [str] patterns. *)
Definition py_isspace (c : ascii) : bool :=
  let n := nat_of_ascii c in
  ((9 <=? n) && (n <=? 13)) || ((28 <=? n) && (n <=? 32))
  || (n =? 133) || (n =? 160).

(** [str.isdecimal], the [\d] class of [re] for [str] patterns. *)
Definition py_isdecimal (c : ascii) : bool :=
  let n := nat_of_ascii c in (48 <=? n) && (n <=? 57).

Definition is_nl (c : ascii) : bool := bool_decide (c = nl).

(** The two classes are disjoint, and a newline is whitespace. *)
Lemma isspace_not_decimal c : py_isspace c = true → py_isdecimal c = false.
Proof.
  unfold py_isspace, py_isdecimal. intros H.
  repeat rewrite ?orb_true_iff, ?andb_true_iff, ?Nat.leb_le, ?Nat.eqb_eq in H.
  apply not_true_iff_false. rewrite andb_true_iff, !Nat.leb_le. lia.
Qed.

Lemma is_nl_space c : is_nl c = true → py_isspace c = true.
Proof. unfold is_nl. case_bool_decide; [subst; done|done]. Qed.

Lemma is_nl_not_decimal c : is_nl c = true → py_isdecimal c = false.
Proof. intros. by apply isspace_not_decimal, is_nl_space. Qed.

(** ** Calls that may raise *)

Inductive result (E A : Type) : Type :=
| Ok (a : A)
| Raise (e : E).
Arguments Ok {E A} a.
Arguments Raise {E A} e.

#[export] Instance result_ret {E} : MRet (result E) := λ A a, Ok a.
#[export] Instance result_bind {E} : MBind (result E) :=
  λ A B f r, match r with Ok a => f a | Raise e => Raise e end.
#[export] Instance result_fmap {E} : FMap (result E) :=
  λ A B f r, match r with Ok a => Ok (f a) | Raise e => Raise e end.

(** The double quote, which a Rocq string literal cannot hold alone. *)
Definition dquote : ascii := Ascii.ascii_of_nat 34.

(** ** Deleting characters of a class *)

(** [deletes P s t]: [t] is [s] with some characters satisfying [P]
    removed, the others kept in order. *)
Inductive deletes {A} (P : A → Prop) : list A → list A → Prop :=
| deletes_nil : deletes P [] []
| deletes_keep x l l' : deletes P l l' → deletes P (x :: l) (x :: l')
| deletes_drop x l l' : P x → deletes P l l' → deletes P (x :: l) l'.

Create HintDb py discriminated.
#[export] Hint Constructors deletes : py.

Ltac invc H := inversion H; subst; clear H.

Section Deletes.
Context {A : Type} (P : A → Prop).

Lemma deletes_refl l : deletes P l l.
Proof. induction l; auto with py. Qed.

Lemma deletes_app l1 l1' l2 l2' :
  deletes P l1 l1' → deletes P l2 l2' → deletes P (l1 ++ l2) (l1' ++ l2').
Proof. induction 1; simpl; auto with py. Qed.

Lemma deletes_all l l' : Forall P l → deletes P (l ++ l') l'.
Proof. induction 1; simpl; auto using deletes_refl with py. Qed.

Lemma deletes_trans l1 l2 l3 :
  deletes P l1 l2 → deletes P l2 l3 → deletes P l1 l3.
Proof.
  intros H12. revert l3. induction H12; intros l3 H23; auto with py.
  invc H23; eauto with py.
Qed.

Lemma deletes_weaken (Q : A → Prop) l l' :
  (∀ x, P x → Q x) → deletes P l l' → deletes Q l l'.
Proof. intros HPQ. induction 1; eauto with py. Qed.

Lemma deletes_length l l' : deletes P l l' → length l' ≤ length l.
Proof. induction 1; simpl; lia. Qed.

Lemma deletes_elem l l' x : deletes P l l' → x ∈ l' → x ∈ l.
Proof.
  induction 1; intros Hx; [done| |].
  - apply elem_of_cons in Hx as [->|Hx]; [left|right]; auto.
  - right. auto.
Qed.

(** A character outside the class survives at the head. *)
Lemma deletes_keep_head x l l' :
  ¬ P x → deletes P (x :: l) l' → ∃ l'', l' = x :: l''.
Proof. intros Hx H. invc H; [eauto|done]. Qed.

Lemma deletes_rev l l' : deletes P l l' → deletes P (rev l) (rev l').
Proof.
  induction 1; simpl; [constructor| |].
  - apply deletes_app; [done|]. by repeat constructor.
  - rewrite <- (app_nil_r (rev l')). apply deletes_app; [done|].
    by repeat constructor.
Qed.

Lemma deletes_replicate x m n :
  P x → m ≤ n → deletes P (replicate n x) (replicate m x).
Proof.
  intros Hx. revert m. induction n as [|n IH]; intros [|m] Hm; simpl; try lia.
  - constructor.
  - constructor; [done|]. apply (IH 0). lia.
  - constructor. apply IH. lia.
Qed.
End Deletes.

#[export] Hint Resolve deletes_refl deletes_app deletes_all : py.

End PyPrelude.
Export PyPrelude.
