(* ===== verification/Regex.v ===== *)
(** * The part of Python's [re] that [clean_data.py] uses

    Patterns are sequences of items: a character of a class, a greedy
    repetition [k{m,}] of a class (so [k+] is [Rep k 1] and [k*] is
    [Rep k 0]), and the MULTILINE anchors [^] and [$].  [match_here] is
    the backtracking matcher in the priority order of CPython's [sre]
    (a repetition tries its longest run first and gives characters back
    one at a time); [re_sub] is [re.sub] with a literal replacement.  A
    position carries the previous character, because the anchors look
    at the text before the scan position. *)

From S2P Require Import PyPrelude.

Module Regex.

(** ** Syntax *)

Inductive cls :=
| CChar (c : ascii)   (** a literal character *)
| CNot (c : ascii)    (** [[^c]] *)
| CSpace              (** [\s] *)
| CDigit.             (** [\d] *)

Inductive item :=
| Bol                       (** [^] under [re.MULTILINE] *)
| Eol                       (** [$] under [re.MULTILINE] *)
| One (k : cls)             (** one character of [k] *)
| Rep (k : cls) (min : nat). (** [k{min,}], greedy *)

Abbreviation pattern := (list item).

Definition cls_test (k : cls) (c : ascii) : bool :=
  match k with
  | CChar d => bool_decide (c = d)
  | CNot d => negb (bool_decide (c = d))
  | CSpace => py_isspace c
  | CDigit => py_isdecimal c
  end.

(** [^] holds at the start of the text and after a newline. *)
Definition at_bol (prev : option ascii) : bool :=
  match prev with None => true | Some c => is_nl c end.

(** [$] holds at the end of the text and before a newline. *)
Definition at_eol (s : text) : bool :=
  match s with [] => true | c :: _ => is_nl c end.

(** ** Matching *)

(** Length of the longest prefix of [s] in class [k]. *)
Fixpoint run (k : cls) (s : text) : nat :=
  match s with
  | c :: s' => if cls_test k c then S (run k s') else 0
  | [] => 0
  end.

(** The position [n] characters further on. *)
Fixpoint advance (prev : option ascii) (s : text) (n : nat) : option ascii * text :=
  match n, s with
  | S n', c :: s' => advance (Some c) s' n'
  | _, _ => (prev, s)
  end.

(** A greedy repetition that has [n] characters available tries the
    rest of the pattern after [n], [n-1], ..., [mn] of them. *)
Fixpoint backtrack (tail : option ascii → text → option (option ascii * text))
    (prev : option ascii) (s : text) (mn n : nat) : option (option ascii * text) :=
  if n <? mn then None else
  match tail (advance prev s n).1 (advance prev s n).2 with
  | Some r => Some r
  | None => match n with 0 => None | S n' => backtrack tail prev s mn n' end
  end.

(** The first match of [p] at the position [(prev, s)] in backtracking
    order, as the position where it ends. *)
Fixpoint match_here (p : pattern) (prev : option ascii) (s : text)
    : option (option ascii * text) :=
  match p with
  | [] => Some (prev, s)
  | Bol :: p' => if at_bol prev then match_here p' prev s else None
  | Eol :: p' => if at_eol s then match_here p' prev s else None
  | One k :: p' =>
      match s with
      | c :: s' => if cls_test k c then match_here p' (Some c) s' else None
      | [] => None
      end
  | Rep k mn :: p' => backtrack (match_here p') prev s mn (run k s)
  end.

(** ** Substitution *)

(** [re.sub(p, repl, s)] from the position [(prev, s)].  After a match
    the scan resumes where it ended; after an empty match or no match one
    character is copied.  [fuel] bounds the number of positions. *)
Fixpoint sub_from (fuel : nat) (p : pattern) (repl : text)
    (prev : option ascii) (s : text) : text :=
  match fuel with
  | 0 => s
  | S fuel' =>
      let copy := match s with
                  | [] => []
                  | c :: s' => c :: sub_from fuel' p repl (Some c) s'
                  end in
      match match_here p prev s with
      | Some (prev', s') =>
          if length s' <? length s then repl ++ sub_from fuel' p repl prev' s'
          else repl ++ copy
      | None => copy
      end
  end.

Definition re_sub (p : pattern) (repl : text) (s : text) : text :=
  sub_from (S (length s)) p repl None s.

(** [re.search(p, s) is not None], from the position [(prev, s)]. *)
Fixpoint re_search (p : pattern) (prev : option ascii) (s : text) : bool :=
  match match_here p prev s with
  | Some _ => true
  | None => match s with [] => false | c :: s' => re_search p (Some c) s' end
  end.

(** ** Positions *)

(** The previous character once [u] has been consumed. *)
Definition after (prev : option ascii) (u : text) : option ascii :=
  match last u with Some c => Some c | None => prev end.

(** [re.sub] from a position, with enough fuel. *)
Definition sub_at (p : pattern) (repl : text) (prev : option ascii) (s : text) : text :=
  sub_from (S (length s)) p repl prev s.

(** A pattern whose every match consumes only characters of [P]. *)
Definition consumes_only (P : ascii → Prop) (p : pattern) : Prop :=
  ∀ prev s prev' s', match_here p prev s = Some (prev', s') →
    ∃ u, s = u ++ s' ∧ Forall P u.

(** ** Lemmas on positions and runs *)

Lemma after_app prev u v : after prev (u ++ v) = after (after prev u) v.
Proof.
  unfold after. destruct v as [|c v _] using rev_ind.
  - rewrite app_nil_r. by destruct (last u).
  - by rewrite app_assoc, !last_app_cons.
Qed.

Lemma after_cons prev c u : after prev (c :: u) = after (Some c) u.
Proof. change (c :: u) with ([c] ++ u). by rewrite after_app. Qed.

Lemma advance_eq prev s n : advance prev s n = (after prev (take n s), drop n s).
Proof.
  revert prev n. induction s as [|c s IH]; intros prev [|n]; simpl; try done.
  by rewrite IH, after_cons.
Qed.

Lemma run_le k s : run k s ≤ length s.
Proof. induction s; simpl; [lia|]. case_match; simpl; lia. Qed.

Lemma run_take k s : Forall (λ c, cls_test k c = true) (take (run k s) s).
Proof. induction s as [|c s IH]; simpl; [constructor|]. case_match; simpl; auto. Qed.

Lemma run_take_le k s n :
  n ≤ run k s → Forall (λ c, cls_test k c = true) (take n s).
Proof.
  intros Hn. pose proof (run_take k s) as H.
  apply (Forall_take _ n) in H. rewrite take_take in H.
  by replace (n `min` run k s) with n in H by lia.
Qed.

Lemma run_drop_lt k s m :
  m < run k s → ∃ c r, drop m s = c :: r ∧ cls_test k c = true.
Proof.
  revert m. induction s as [|c s IH]; intros m Hm; simpl in *; [lia|].
  destruct (cls_test k c) eqn:Hc; [|lia]. destruct m as [|m]; [eauto|].
  apply IH. lia.
Qed.

Lemma run_prefix k u v : run k u ≤ run k (u ++ v).
Proof. induction u as [|c u IH]; simpl; [lia|]. case_match; lia. Qed.

(** The run stops at a character outside the class. *)
Lemma run_stop k s :
  match drop (run k s) s with [] => True | c :: _ => cls_test k c = false end.
Proof. induction s as [|c s IH]; simpl; [done|]. by destruct (cls_test k c) eqn:E. Qed.

(** ** The matcher only moves forward *)

Lemma backtrack_some tail prev s mn n r :
  backtrack tail prev s mn n = Some r →
  ∃ m, mn ≤ m ≤ n ∧ tail (advance prev s m).1 (advance prev s m).2 = Some r.
Proof.
  induction n as [|n IH]; intros H; simpl in H.
  - destruct (Nat.ltb_spec 0 mn); [done|].
    destruct (tail _ _) eqn:E; simplify_eq. exists 0. split; [lia|done].
  - destruct (Nat.ltb_spec (S n) mn); [done|].
    destruct (tail _ _) eqn:E.
    + simplify_eq. exists (S n). split; [lia|done].
    + destruct (IH H) as (m & ? & ?). exists m. split; [lia|done].
Qed.

Lemma backtrack_none tail prev s mn n :
  (∀ m, mn ≤ m ≤ n → tail (advance prev s m).1 (advance prev s m).2 = None) →
  backtrack tail prev s mn n = None.
Proof.
  induction n as [|n IH]; intros H; simpl.
  - destruct (Nat.ltb_spec 0 mn); [done|]. rewrite H; [done|lia].
  - destruct (Nat.ltb_spec (S n) mn); [done|]. rewrite H by lia.
    apply IH. intros m ?. apply H. lia.
Qed.

Lemma backtrack_hit tail prev s mn n r :
  mn ≤ n → tail (advance prev s n).1 (advance prev s n).2 = Some r →
  backtrack tail prev s mn n = Some r.
Proof.
  intros Hn Ht. destruct n as [|n]; simpl;
    [destruct (Nat.ltb_spec 0 mn) | destruct (Nat.ltb_spec (S n) mn)];
    try lia; by rewrite Ht.
Qed.

Lemma run_app k u v :
  Forall (λ c, cls_test k c = true) u → run k (u ++ v) = length u + run k v.
Proof. induction 1 as [|c u Hc _ IH]; simpl; [done|]. by rewrite Hc, IH. Qed.

Lemma match_here_consumes p prev s prev' s' :
  match_here p prev s = Some (prev', s') →
  ∃ u, s = u ++ s' ∧ prev' = after prev u.
Proof.
  revert prev s. induction p as [|[| |k|k mn] p IH]; intros prev s H; simpl in H.
  - simplify_eq. by exists [].
  - case_match; [by apply IH|done].
  - case_match; [by apply IH|done].
  - destruct s as [|c s]; [done|]. case_match; [|done].
    destruct (IH _ _ H) as (u & -> & ->). exists (c :: u). by rewrite after_cons.
  - destruct (backtrack_some _ _ _ _ _ _ H) as (m & _ & Hm).
    rewrite advance_eq in Hm. simpl in Hm.
    destruct (IH _ _ Hm) as (u & Hu & ->). exists (take m s ++ u).
    rewrite <- app_assoc, <- Hu, take_drop. split; [done|]. by rewrite after_app.
Qed.

(** A repetition whose shorter counts all fail behaves as its longest. *)
Lemma backtrack_top tail prev s mn n :
  mn ≤ n → (∀ m, mn ≤ m < n → tail (advance prev s m).1 (advance prev s m).2 = None) →
  backtrack tail prev s mn n = tail (advance prev s n).1 (advance prev s n).2.
Proof.
  intros Hn Hlow. destruct n as [|n]; simpl.
  - destruct (Nat.ltb_spec 0 mn); [lia|]. by destruct (tail _ _).
  - destruct (Nat.ltb_spec (S n) mn); [lia|]. destruct (tail _ _); [done|].
    apply backtrack_none. intros m ?. apply Hlow. lia.
Qed.

(** Every character a pattern can consume lies in [P]. *)
Definition classes_within (P : ascii → Prop) (p : pattern) : Prop :=
  Forall (λ it, match it with
                | One k | Rep k _ => ∀ c, cls_test k c = true → P c
                | _ => True
                end) p.

Lemma classes_consumes_only P p : classes_within P p → consumes_only P p.
Proof.
  unfold consumes_only. induction 1 as [|[| |k|k mn] p Hit _ IH];
    intros prev s prev' s' H; simpl in H.
  - simplify_eq. by exists [].
  - case_match; [by eapply IH|done].
  - case_match; [by eapply IH|done].
  - destruct s as [|c s]; [done|]. destruct (cls_test k c) eqn:Hc; [|done].
    destruct (IH _ _ _ _ H) as (u & -> & Hu). exists (c :: u).
    split; [done|]. constructor; [by apply Hit|done].
  - destruct (backtrack_some _ _ _ _ _ _ H) as (m & Hm & Ht).
    rewrite advance_eq in Ht. simpl in Ht.
    destruct (IH _ _ _ _ Ht) as (u & Hu & HPu). exists (take m s ++ u).
    rewrite <- app_assoc, <- Hu, take_drop. split; [done|].
    apply Forall_app; split; [|done].
    eapply Forall_impl; [apply (run_take_le k); lia|exact Hit].
Qed.

(** ** Fuel *)

Lemma sub_from_fuel p repl f1 f2 prev s :
  length s < f1 → length s < f2 →
  sub_from f1 p repl prev s = sub_from f2 p repl prev s.
Proof.
  revert f2 prev s. induction f1 as [|f1 IH]; intros [|f2] prev s H1 H2; try lia.
  simpl. destruct (match_here p prev s) as [[prev' s']|] eqn:E.
  - destruct (Nat.ltb_spec (length s') (length s)).
    + f_equal. apply IH; lia.
    + destruct s; simpl in *; [done|]. do 2 f_equal. apply IH; lia.
  - destruct s; simpl in *; [done|]. f_equal. apply IH; lia.
Qed.

(** The equation [re.sub] satisfies, without fuel. *)
Lemma sub_at_eq p repl prev s :
  sub_at p repl prev s =
  let copy := match s with [] => [] | c :: s' => c :: sub_at p repl (Some c) s' end in
  match match_here p prev s with
  | Some (prev', s') =>
      if length s' <? length s then repl ++ sub_at p repl prev' s' else repl ++ copy
  | None => copy
  end.
Proof.
  unfold sub_at at 1. cbn [sub_from].
  destruct (match_here p prev s) as [[prev' s']|] eqn:E.
  - destruct (Nat.ltb_spec (length s') (length s)).
    + f_equal. apply sub_from_fuel; lia.
    + by destruct s.
  - by destruct s.
Qed.

(** The three cases of a scan step. *)
Lemma sub_at_match p repl prev s prev' s' :
  match_here p prev s = Some (prev', s') → length s' < length s →
  sub_at p repl prev s = repl ++ sub_at p repl prev' s'.
Proof.
  intros Hm Hl. rewrite sub_at_eq, Hm. cbv zeta.
  by rewrite (proj2 (Nat.ltb_lt _ _) Hl).
Qed.

Lemma sub_at_skip p repl prev c s :
  match_here p prev (c :: s) = None →
  sub_at p repl prev (c :: s) = c :: sub_at p repl (Some c) s.
Proof. intros Hm. by rewrite sub_at_eq, Hm. Qed.

Lemma sub_at_end p repl prev :
  match_here p prev [] = None → sub_at p repl prev [] = [].
Proof. intros Hm. by rewrite sub_at_eq, Hm. Qed.

Lemma re_sub_sub_at p repl s : re_sub p repl s = sub_at p repl None s.
Proof. done. Qed.

(** A position where the pattern matches nowhere is left unchanged. *)
Lemma sub_at_no_match p repl prev s :
  re_search p prev s = false → sub_at p repl prev s = s.
Proof.
  revert prev. induction s as [|c s IH]; intros prev H;
    rewrite sub_at_eq; simpl in *; destruct (match_here p prev _); try done.
  f_equal. by apply IH.
Qed.

(** Deleting every match of a pattern deletes characters of the class
    its matches consume. *)
Lemma sub_at_deletes (P : ascii → Prop) p prev s :
  consumes_only P p → deletes P s (sub_at p [] prev s).
Proof.
  intros HP. remember (length s) as n eqn:Hn.
  revert prev s Hn. induction n as [n IH] using lt_wf_ind; intros prev s ->.
  rewrite sub_at_eq. simpl.
  destruct (match_here p prev s) as [[prev' s']|] eqn:E.
  - destruct (HP _ _ _ _ E) as (u & -> & Hu).
    destruct (Nat.ltb_spec (length s') (length (u ++ s'))).
    + simpl. apply (deletes_trans _ _ s'); [by apply deletes_all|].
      apply (IH (length s')); [lia|done].
    + rewrite length_app in *. destruct u; [|simpl in *; lia]. simpl.
      destruct s' as [|c s']; constructor. apply (IH (length s')); simpl; [lia|done].
  - destruct s as [|c s']; constructor. apply (IH (length s')); simpl; [lia|done].
Qed.

(** The fuel of [re.sub] never runs out: one step per position of
    the text is enough, and any more fuel gives the same result, so
    [re_sub] is the result of the unbounded scan. *)
Theorem re_sub_fuel p repl s f :
  length s < f → sub_from f p repl None s = re_sub p repl s.
Proof. intros Hf. unfold re_sub. apply sub_from_fuel; lia. Qed.

End Regex.
