(* ===== verification/RegexSpec.v ===== *)
(** * The [re] subset against a declarative semantics

    [matches p prev s prev' s'] says that the pattern [p] can match a
    prefix of [s] at the position [(prev, s)] and end at the position
    [(prev', s')]: the meaning of each item as an inference rule, with
    no order among the matches, in the way a natural semantics describes
    a language.  [match_here] is sound for it (what the backtracking
    matcher returns is a match) and complete (it finds a match whenever
    one exists), so its backtracking order only chooses among matches;
    [re_search] answers [true] exactly when a match starts at some
    position of the text, the end of the text included. *)

From S2P Require Import PyPrelude Regex.
Import Regex.

Module RegexSpec.

Inductive matches : pattern → option ascii → text → option ascii → text → Prop :=
| matches_nil prev s : matches [] prev s prev s
| matches_bol p prev s r1 r2 :
    at_bol prev = true → matches p prev s r1 r2 → matches (Bol :: p) prev s r1 r2
| matches_eol p prev s r1 r2 :
    at_eol s = true → matches p prev s r1 r2 → matches (Eol :: p) prev s r1 r2
| matches_one k p prev c s r1 r2 :
    cls_test k c = true → matches p (Some c) s r1 r2 → matches (One k :: p) prev (c :: s) r1 r2
| matches_rep k mn p prev u s r1 r2 :
    mn ≤ length u → Forall (λ c, cls_test k c = true) u →
    matches p (after prev u) s r1 r2 → matches (Rep k mn :: p) prev (u ++ s) r1 r2.

Create HintDb regex discriminated.
#[local] Hint Constructors matches : regex.

(** A match starts at the position [i] characters into [s]. *)
Definition matches_at (p : pattern) (prev : option ascii) (s : text) : Prop :=
  ∃ i r1 r2, i ≤ length s ∧ matches p (after prev (take i s)) (drop i s) r1 r2.

(** ** The backtracking matcher *)

(** A repetition finds a match when one of its counts has one. *)
Lemma backtrack_found tail prev s mn n m r :
  mn ≤ m ≤ n → tail (advance prev s m).1 (advance prev s m).2 = Some r →
  ∃ r', backtrack tail prev s mn n = Some r'.
Proof.
  induction n as [|n IH]; intros Hm Ht.
  - replace m with 0 in Ht by lia. eexists. apply backtrack_hit; [lia|exact Ht].
  - destruct (decide (m = S n)) as [->|]; [eexists; apply backtrack_hit; [lia|exact Ht]|].
    destruct IH as [r' Hr']; [lia|exact Ht|]. simpl. destruct (Nat.ltb_spec (S n) mn); [lia|].
    destruct (tail (advance prev s (S n)).1 _); eauto.
Qed.

Lemma advance_app prev u s : advance prev (u ++ s) (length u) = (after prev u, s).
Proof. by rewrite advance_eq, take_app_length, drop_app_length. Qed.

Lemma match_here_sound p prev s r1 r2 :
  match_here p prev s = Some (r1, r2) → matches p prev s r1 r2.
Proof.
  revert prev s. induction p as [|[| |k|k mn] p IH]; intros prev s H; simpl in H.
  - simplify_eq. constructor.
  - destruct (at_bol prev) eqn:E; [auto with regex|done].
  - destruct (at_eol s) eqn:E; [auto with regex|done].
  - destruct s as [|c s]; [done|]. destruct (cls_test k c) eqn:E; [auto with regex|done].
  - destruct (backtrack_some _ _ _ _ _ _ H) as (m & Hm & Ht).
    rewrite advance_eq in Ht. simpl in Ht. rewrite <- (take_drop m s).
    pose proof (run_le k s). apply matches_rep; [rewrite length_take; lia| |auto].
    apply run_take_le. lia.
Qed.

Lemma match_here_complete p prev s r1 r2 :
  matches p prev s r1 r2 → ∃ r, match_here p prev s = Some r.
Proof.
  induction 1 as [prev s|p prev s r1 r2 Hb _ IH|p prev s r1 r2 He _ IH
                 |k p prev c s r1 r2 Hc _ IH|k mn p prev u s r1 r2 Hmn Hu _ [r IH]]; simpl.
  - eauto.
  - by rewrite Hb.
  - by rewrite He.
  - by rewrite Hc.
  - apply (backtrack_found _ _ _ _ _ (length u) r); [|by rewrite advance_app].
    rewrite run_app by done. lia.
Qed.

(** [C5] The backtracking matcher implements the semantics of the
    pattern: what [match_here] returns is a match of the pattern at that
    position, and it returns nothing only when the pattern has no match
    there, whatever the backtracking order. *)
Theorem match_here_spec p prev s :
  (∀ r1 r2, match_here p prev s = Some (r1, r2) → matches p prev s r1 r2) ∧
  (match_here p prev s = None ↔ ∀ r1 r2, ¬ matches p prev s r1 r2).
Proof.
  split; [apply match_here_sound|]. split.
  - intros Hn r1 r2 Hm. destruct (match_here_complete _ _ _ _ _ Hm) as [r Hr]. congruence.
  - intros Hno. destruct (match_here p prev s) as [[r1 r2]|] eqn:E; [|done].
    by destruct (Hno r1 r2 (match_here_sound _ _ _ _ _ E)).
Qed.

(** ** Search *)

Lemma matches_at_here p prev s r1 r2 : matches p prev s r1 r2 → matches_at p prev s.
Proof. intros Hm. exists 0, r1, r2. split; [lia|done]. Qed.

Lemma matches_at_cons p prev c s : matches_at p (Some c) s → matches_at p prev (c :: s).
Proof.
  intros (i & r1 & r2 & Hi & Hm). exists (S i), r1, r2. simpl.
  rewrite after_cons. split; [lia|done].
Qed.

Lemma matches_at_inv p prev s :
  matches_at p prev s →
  (∃ r1 r2, matches p prev s r1 r2) ∨
  (∃ c s', s = c :: s' ∧ matches_at p (Some c) s').
Proof.
  intros ([|i] & r1 & r2 & Hi & Hm); [left; eauto|right].
  destruct s as [|c s']; simpl in Hi; [lia|]. cbn [take drop] in Hm. rewrite after_cons in Hm.
  exists c, s'. split; [done|]. exists i, r1, r2. split; [lia|done].
Qed.

(** [re.search(p, s) is not None] exactly when the pattern has a
    match starting at some position of the text, the end of the text
    included. *)
Theorem re_search_spec p prev s : re_search p prev s = true ↔ matches_at p prev s.
Proof.
  revert prev. induction s as [|c s IH]; intros prev; simpl; split.
  - destruct (match_here p prev []) as [[r1 r2]|] eqn:E; [|done].
    intros _. eapply matches_at_here, match_here_sound, E.
  - intros [(r1 & r2 & Hm)|(c & s' & ? & _)]%matches_at_inv; [|done].
    by destruct (match_here_complete _ _ _ _ _ Hm) as [? ->].
  - destruct (match_here p prev (c :: s)) as [[r1 r2]|] eqn:E.
    + intros _. eapply matches_at_here, match_here_sound, E.
    + intros Hs. by apply matches_at_cons, IH.
  - intros [(r1 & r2 & Hm)|(c' & s' & [= <- <-] & Hs)]%matches_at_inv.
    + by destruct (match_here_complete _ _ _ _ _ Hm) as [? ->].
    + destruct (match_here p prev (c :: s)); [done|]. by apply IH.
Qed.

End RegexSpec.
