(* ===== verification/Clean.v ===== *)
(** * [src/clean_data.py]: the text normaliser and the cleaning pass

    [clean_text] is three [re.sub] calls and [str.strip], modelled with
    the [Regex] engine.  Each call is proved equal to a one-pass reference
    function, and the output of [clean_text] is shown to be free of what
    each step removes. *)

From S2P Require Import PyPrelude Regex.
Import Regex.
Local Open Scope py_scope.

Module Clean.

(** [r'<[^>]+>'] *)
Definition tag_pattern : pattern :=
  [One (CChar "<"); Rep (CNot ">") 1; One (CChar ">")].

(** [r'^\s*\d+\s*$'] with [flags=re.MULTILINE] *)
Definition number_line_pattern : pattern :=
  [Bol; Rep CSpace 0; Rep CDigit 1; Rep CSpace 0; Eol].

(** [r'\n{3,}'] *)
Definition newlines_pattern : pattern := [Rep (CChar nl) 3].

(** [str.lstrip()] *)
Fixpoint lstrip (s : text) : text :=
  match s with
  | c :: s' => if py_isspace c then lstrip s' else s
  | [] => []
  end.

(** [str.strip()] *)
Definition strip (s : text) : text := rev (lstrip (rev (lstrip s))).

(** [clean_text(text)] *)
Definition clean_text (s : text) : text :=
  let s1 := re_sub tag_pattern [] s in
  let s2 := re_sub number_line_pattern [] s1 in
  let s3 := re_sub newlines_pattern [nl; nl] s2 in
  strip s3.

(** ** Reference functions *)

(** One pass over the text that removes the tags [<...>]: after a [<]
    the characters are held back until a [>] closes a non-empty tag,
    which drops them, or the text ends, which gives them back. *)
Inductive tag_state := Outside | Inside (held : text).

Fixpoint strip_tags_from (st : tag_state) (s : text) : text :=
  match st, s with
  | Outside, [] => []
  | Inside held, [] => "<"%char :: rev held
  | Outside, c :: s' =>
      if bool_decide (c = "<"%char) then strip_tags_from (Inside []) s'
      else c :: strip_tags_from Outside s'
  | Inside held, c :: s' =>
      if bool_decide (c = ">"%char) then
        match held with
        | [] => "<"%char :: ">"%char :: strip_tags_from Outside s'
        | _ :: _ => strip_tags_from Outside s'
        end
      else strip_tags_from (Inside (c :: held)) s'
  end.

Definition strip_tags (s : text) : text := strip_tags_from Outside s.

(** One pass that writes each maximal run of [k] newlines as [min k 2]
    newlines; [k] counts the newlines of the current run. *)
Fixpoint collapse_from (k : nat) (s : text) : text :=
  match s with
  | [] => replicate (k `min` 2) nl
  | c :: s' =>
      if bool_decide (c = nl) then collapse_from (S k) s'
      else replicate (k `min` 2) nl ++ c :: collapse_from 0 s'
  end.

Definition collapse_newlines (s : text) : text := collapse_from 0 s.

(** The largest [j ≤ w] such that [$] holds after [j] characters. *)
Fixpoint last_eol (w : nat) (s : text) : option nat :=
  if at_eol (drop w s) then Some w
  else match w with 0 => None | S w' => last_eol w' s end.

(** The match of [r'^\s*\d+\s*$'] at a position without backtracking:
    the whole leading whitespace run, the whole digit run, then the
    longest part of the trailing whitespace run that ends at a line end. *)
Definition number_line_at (prev : option ascii) (s : text)
    : option (option ascii * text) :=
  if at_bol prev then
    let '(p1, s1) := advance prev s (run CSpace s) in
    let d := run CDigit s1 in
    if bool_decide (d = 0) then None else
    let '(p2, s2) := advance p1 s1 d in
    match last_eol (run CSpace s2) s2 with
    | Some j => Some (advance p2 s2 j)
    | None => None
    end
  else None.

(** ** The tag pattern *)

Section Tags.
Implicit Types (prev : option ascii) (s u : text).

Lemma tag_match_not_lt prev c s :
  c ≠ "<"%char → match_here tag_pattern prev (c :: s) = None.
Proof. intros Hc. simpl. by rewrite bool_decide_false. Qed.

Lemma tag_match_nil prev : match_here tag_pattern prev [] = None.
Proof. done. Qed.

Lemma tag_match_empty prev s :
  match_here tag_pattern prev ("<" :: ">" :: s)%char = None.
Proof. done. Qed.

Lemma tag_match_unclosed prev u :
  Forall (λ c, c ≠ ">"%char) u → match_here tag_pattern prev ("<"%char :: u) = None.
Proof.
  intros Hu. simpl. apply backtrack_none. intros m _.
  rewrite advance_eq. simpl.
  pose proof (Forall_drop _ m u Hu) as Hd.
  destruct (drop m u) as [|c r]; [done|]. invc Hd.
  by rewrite bool_decide_false.
Qed.

Lemma tag_match_closed prev u s :
  u ≠ [] → Forall (λ c, c ≠ ">"%char) u →
  match_here tag_pattern prev ("<"%char :: u ++ ">"%char :: s) = Some (Some ">"%char, s).
Proof.
  intros Hne Hu. simpl. apply backtrack_hit.
  - rewrite run_app; [simpl; destruct u; simpl in *; [done|lia]|].
    eapply Forall_impl; [done|]. intros c Hc. simpl. by rewrite bool_decide_false.
  - rewrite run_app; simpl.
    + rewrite Nat.add_0_r, advance_eq, drop_app_length. simpl.
      by rewrite ?bool_decide_true.
    + eapply Forall_impl; [done|]. intros c Hc. simpl. by rewrite bool_decide_false.
Qed.

Lemma tag_search_unclosed prev u :
  Forall (λ c, c ≠ ">"%char) u → re_search tag_pattern prev u = false.
Proof.
  revert prev. induction u as [|c u IH]; intros prev Hu; [done|].
  cbn [re_search]. invc Hu.
  destruct (decide (c = "<"%char)) as [->|Hc].
  - rewrite tag_match_unclosed by done. by apply IH.
  - rewrite tag_match_not_lt by done. by apply IH.
Qed.

Lemma sub_tags_state s :
  (∀ prev, sub_at tag_pattern [] prev s = strip_tags_from Outside s) ∧
  (∀ prev held, Forall (λ c, c ≠ ">"%char) held →
     sub_at tag_pattern [] prev ("<"%char :: rev held ++ s) = strip_tags_from (Inside held) s).
Proof.
  induction s as [|c s [IHo IHi]]; split.
  - intros prev. by rewrite sub_at_end.
  - intros prev held Hheld. cbn [strip_tags_from]. rewrite app_nil_r.
    apply sub_at_no_match, tag_search_unclosed. constructor; [done|].
    by apply Forall_rev.
  - intros prev. cbn [strip_tags_from]. case_bool_decide as Hc.
    + subst. apply (IHi prev []). constructor.
    + rewrite sub_at_skip by (by apply tag_match_not_lt). by rewrite IHo.
  - intros prev held Hheld. cbn [strip_tags_from]. case_bool_decide as Hc.
    + subst. destruct held as [|h held].
      * cbn [rev app]. rewrite sub_at_skip by apply tag_match_empty.
        rewrite sub_at_skip by (by apply tag_match_not_lt). by rewrite IHo.
      * rewrite (sub_at_match _ _ _ _ (Some ">"%char) s).
        -- apply IHo.
        -- apply tag_match_closed; [|by apply Forall_rev].
           intros Hr. apply (f_equal length) in Hr.
           rewrite length_rev in Hr. simpl in Hr. lia.
        -- rewrite length_cons, length_app. simpl. lia.
    + rewrite <- (IHi prev (c :: held)) by (constructor; done).
      cbn [rev]. by rewrite <- app_assoc.
Qed.
End Tags.

(** [C2] The first [re.sub] of [clean_text] ([r'<[^>]+>'] deleted) is
    the one-pass tag stripper. *)
Theorem re_sub_tags_spec s : re_sub tag_pattern [] s = strip_tags s.
Proof. apply (sub_tags_state s). Qed.

(** ** The newline pattern *)

Section Newlines.
Implicit Types (prev : option ascii) (s : text).

(** [s] does not continue a run of newlines. *)
Definition run_ends s : Prop := head s ≠ Some nl.

Lemma run_newlines k s :
  run_ends s → run (CChar nl) (replicate k nl ++ s) = k.
Proof.
  intros Hs. rewrite run_app; [|apply Forall_replicate; simpl; by rewrite ?bool_decide_true].
  rewrite length_replicate. destruct s as [|c s]; simpl; [lia|].
  rewrite bool_decide_false; [lia|]. intros ->. by apply Hs.
Qed.

Lemma after_newlines prev k : after prev (replicate (S k) nl) = Some nl.
Proof.
  unfold after. by rewrite replicate_S_end, last_app_cons.
Qed.

Lemma newlines_match_long prev k s :
  3 ≤ k → run_ends s →
  match_here newlines_pattern prev (replicate k nl ++ s) = Some (Some nl, s).
Proof.
  intros Hk Hs. simpl. rewrite run_newlines by done.
  apply backtrack_hit; [done|]. rewrite advance_eq. simpl.
  rewrite take_app_length', drop_app_length' by (by rewrite length_replicate).
  destruct k as [|k]; [lia|]. by rewrite after_newlines.
Qed.

Lemma newlines_match_short prev k s :
  k < 3 → run_ends s → match_here newlines_pattern prev (replicate k nl ++ s) = None.
Proof.
  intros Hk Hs. simpl. rewrite run_newlines by done.
  destruct k as [|[|[|k]]]; [done..|lia].
Qed.

Lemma newlines_sub_short prev k s :
  k < 3 → run_ends s →
  sub_at newlines_pattern [nl; nl] prev (replicate k nl ++ s) =
  replicate k nl ++ sub_at newlines_pattern [nl; nl] (after prev (replicate k nl)) s.
Proof.
  revert prev. induction k as [|k IH]; intros prev Hk Hs; [done|].
  rewrite replicate_S. simpl app.
  rewrite sub_at_skip by (apply (newlines_match_short prev (S k)); [lia|done]).
  rewrite IH by (lia || done). by rewrite after_cons.
Qed.

Lemma newlines_sub_run prev k s :
  run_ends s →
  sub_at newlines_pattern [nl; nl] prev (replicate k nl ++ s) =
  replicate (k `min` 2) nl ++
    sub_at newlines_pattern [nl; nl] (after prev (replicate k nl)) s.
Proof.
  intros Hs. destruct (decide (3 ≤ k)).
  - rewrite (sub_at_match _ _ _ _ (Some nl) s).
    + replace (k `min` 2) with 2 by lia. destruct k as [|k]; [lia|].
      by rewrite after_newlines.
    + by apply newlines_match_long.
    + rewrite length_app, length_replicate. lia.
  - rewrite newlines_sub_short by (lia || done). by replace (k `min` 2) with k by lia.
Qed.

Lemma sub_newlines_state s k prev :
  sub_at newlines_pattern [nl; nl] prev (replicate k nl ++ s) = collapse_from k s.
Proof.
  revert k prev. induction s as [|c s IH]; intros k prev; cbn [collapse_from].
  - rewrite newlines_sub_run by done. rewrite sub_at_end by done.
    by rewrite app_nil_r.
  - case_bool_decide as Hc.
    + subst. rewrite <- (IH (S k) prev), replicate_S_end. by rewrite <- app_assoc.
    + rewrite newlines_sub_run by (by intros [= ?]).
      rewrite sub_at_skip by (apply (newlines_match_short _ 0); [lia|by intros [= ?]]).
      f_equal. f_equal. apply (IH 0).
Qed.
End Newlines.

(** [C3] The third [re.sub] of [clean_text] ([r'\n{3,}'] replaced by
    two newlines) writes every maximal run of [k] newlines as
    [min k 2] newlines. *)
Theorem re_sub_newlines_spec s :
  re_sub newlines_pattern [nl; nl] s = collapse_newlines s.
Proof. apply (sub_newlines_state s 0). Qed.

(** ** The number-line pattern *)

Section NumberLines.
Implicit Types (prev : option ascii) (s : text).

Lemma eol_backtrack prev s w :
  backtrack (match_here [Eol]) prev s 0 w =
  match last_eol w s with Some j => Some (advance prev s j) | None => None end.
Proof.
  induction w as [|w IH]; cbn [backtrack last_eol Nat.ltb Nat.leb];
    [|rewrite IH]; rewrite !advance_eq; cbn [match_here fst snd];
    destruct (at_eol (drop _ s)); by rewrite ?advance_eq.
Qed.

(** Fewer digits than the run leave a digit before [$]. *)
Lemma digits_short prev s m :
  1 ≤ m < run CDigit s →
  match_here [Rep CSpace 0; Eol] (advance prev s m).1 (advance prev s m).2 = None.
Proof.
  intros Hm. destruct (run_drop_lt CDigit s m) as (c & r & Hd & Hc); [lia|].
  rewrite advance_eq. simpl. rewrite Hd. simpl.
  destruct (py_isspace c) eqn:Hs; [by rewrite isspace_not_decimal in Hc|]. simpl.
  unfold at_eol. destruct (is_nl c) eqn:Hn; [|done].
  by rewrite is_nl_not_decimal in Hc.
Qed.

(** Less leading whitespace than the run leaves no digit to match. *)
Lemma spaces_short prev s m :
  m < run CSpace s →
  match_here [Rep CDigit 1; Rep CSpace 0; Eol] (advance prev s m).1 (advance prev s m).2 = None.
Proof.
  intros Hm. destruct (run_drop_lt CSpace s m) as (c & r & Hd & Hc); [done|].
  rewrite advance_eq. simpl. rewrite Hd. simpl.
  by rewrite isspace_not_decimal.
Qed.
End NumberLines.

(** The matcher of the number-line pattern is the deterministic one. *)
Lemma number_line_match prev s :
  match_here number_line_pattern prev s = number_line_at prev s.
Proof.
  unfold number_line_pattern, number_line_at. cbn [match_here].
  destruct (at_bol prev); [|done].
  rewrite backtrack_top; [|lia|intros m ?; apply spaces_short; lia].
  destruct (advance prev s (run CSpace s)) as [p1 s1].
  cbn [match_here fst snd]. case_bool_decide as Hd.
  - rewrite Hd. done.
  - rewrite backtrack_top; [|lia|intros m ?; apply digits_short; lia].
    destruct (advance p1 s1 (run CDigit s1)) as [p2 s2].
    cbn [match_here fst snd]. apply eol_backtrack.
Qed.

(** [C4] The backtracking match of [r'^\s*\d+\s*$'] (MULTILINE) is the
    deterministic one: only the longest whitespace and digit runs can
    lead to a match, and the trailing whitespace is cut at its last line
    end. *)
Theorem number_line_match_spec prev s :
  match_here number_line_pattern prev s = number_line_at prev s.
Proof. apply number_line_match. Qed.

(** ** What each step deletes *)

Abbreviation blank_or_digit := (λ c, py_isspace c = true ∨ py_isdecimal c = true).

(** [clean_text] as the pipeline of the reference passes. *)
Lemma clean_text_passes s :
  clean_text s =
  strip (collapse_newlines (re_sub number_line_pattern [] (strip_tags s))).
Proof.
  unfold clean_text, collapse_newlines. cbv zeta. rewrite !re_sub_sub_at.
  rewrite (proj1 (sub_tags_state s)).
  apply (f_equal strip), (sub_newlines_state _ 0).
Qed.

Lemma number_line_classes : classes_within blank_or_digit number_line_pattern.
Proof.
  unfold classes_within.
  repeat (apply List.Forall_cons || apply List.Forall_nil);
    cbn [cls_test]; try exact I; intros c Hc; auto.
Qed.

Lemma number_lines_deletes s :
  deletes blank_or_digit s (re_sub number_line_pattern [] s).
Proof. apply sub_at_deletes, classes_consumes_only, number_line_classes. Qed.

Lemma collapse_deletes s k :
  deletes (λ c, c = nl) (replicate k nl ++ s) (collapse_from k s).
Proof.
  revert k. induction s as [|c s IH]; intros k; cbn [collapse_from].
  - rewrite app_nil_r. apply deletes_replicate; [done|lia].
  - case_bool_decide as Hc.
    + subst. specialize (IH (S k)). by rewrite replicate_S_end, <- app_assoc in IH.
    + apply deletes_app; [apply deletes_replicate; [done|lia]|].
      constructor. apply (IH 0).
Qed.

Lemma lstrip_deletes s : deletes (λ c, py_isspace c = true) s (lstrip s).
Proof.
  induction s as [|c s IH]; simpl; [constructor|].
  destruct (py_isspace c) eqn:Hc; [by constructor|apply deletes_refl].
Qed.

Lemma strip_deletes s : deletes (λ c, py_isspace c = true) s (strip s).
Proof.
  unfold strip. eapply deletes_trans; [apply lstrip_deletes|].
  rewrite <- (rev_involutive (lstrip s)) at 1.
  apply deletes_rev, lstrip_deletes.
Qed.

Lemma clean_text_deletes s : deletes blank_or_digit (strip_tags s) (clean_text s).
Proof.
  rewrite clean_text_passes.
  eapply deletes_trans; [apply number_lines_deletes|].
  eapply deletes_trans; [apply (deletes_weaken (λ c, c = nl)); [|apply (collapse_deletes _ 0)]|].
  - intros c ->. by left.
  - apply (deletes_weaken (λ c, py_isspace c = true)); [by left|apply strip_deletes].
Qed.

(** [C12] After the tags are stripped, [clean_text] only deletes
    whitespace and decimal digits: every other character of the
    tag-free text is kept, in order. *)
Theorem clean_text_deletes_blank_or_digit s :
  deletes blank_or_digit (strip_tags s) (clean_text s).
Proof. apply clean_text_deletes. Qed.

(** Removing the tags only deletes characters. *)
Lemma strip_tags_deletes s : deletes (λ _, True) s (strip_tags s).
Proof.
  unfold strip_tags. rewrite <- (proj1 (sub_tags_state s) None).
  apply sub_at_deletes, classes_consumes_only.
  repeat constructor.
Qed.

(** [clean_text] never lengthens a text: its output has at most as
    many characters as its input. *)
Theorem clean_text_shrinks s : length (clean_text s) ≤ length s.
Proof.
  etrans; [apply (deletes_length _ _ _ (clean_text_deletes s))|].
  apply (deletes_length _ _ _ (strip_tags_deletes s)).
Qed.

(** ** No tag survives *)

(** Every [<] is followed at once by [>], or by no [>] at all: the
    texts in which [r'<[^>]+>'] finds nothing. *)
Fixpoint tagless (s : text) : Prop :=
  match s with
  | [] => True
  | c :: s' => (c = "<"%char → head s' = Some ">"%char ∨ ">"%char ∉ s') ∧ tagless s'
  end.

Lemma not_elem_Forall_neq (x : ascii) u : x ∉ u → Forall (λ c, c ≠ x) u.
Proof. intros Hx. apply Forall_forall. intros c Hc ->. by apply Hx. Qed.

Lemma tagless_no_close u : Forall (λ c, c ≠ ">"%char) u → tagless u.
Proof.
  induction 1 as [|c u Hc Hu IH]; simpl; [done|]. split; [|done].
  intros _. right. intros Hin. apply Forall_forall with (x := ">"%char) in Hu; done.
Qed.

Lemma tagless_search prev s : tagless s → re_search tag_pattern prev s = false.
Proof.
  revert prev. induction s as [|c s IH]; intros prev Hs; [done|].
  destruct Hs as [Hc Hs]. cbn [re_search]. destruct (decide (c = "<"%char)) as [->|Hne].
  - destruct (Hc eq_refl) as [Hh|Hn].
    + destruct s as [|d s]; [by inversion Hh|]. cbn in Hh. simplify_eq.
      rewrite tag_match_empty. by apply IH.
    + rewrite tag_match_unclosed by (by apply not_elem_Forall_neq). by apply IH.
  - rewrite tag_match_not_lt by done. by apply IH.
Qed.

Lemma strip_tags_tagless s :
  tagless (strip_tags_from Outside s) ∧
  ∀ held, Forall (λ c, c ≠ ">"%char) held → tagless (strip_tags_from (Inside held) s).
Proof.
  induction s as [|c s [IHo IHi]]; split; cbn [strip_tags_from].
  - done.
  - intros held Hheld. split; [|apply tagless_no_close, Forall_rev, Hheld].
    intros _. right. intros Hin. apply Forall_rev in Hheld.
    apply Forall_forall with (x := ">"%char) in Hheld; done.
  - case_bool_decide; [apply IHi; constructor|].
    split; [done|apply IHo].
  - intros held Hheld. case_bool_decide as Hc.
    + destruct held; [|apply IHo]. split; [by left|]. split; [|apply IHo].
      by intros [=].
    + apply IHi. by constructor.
Qed.

(** Deleting characters other than [>] keeps a text tagless. *)
Lemma tagless_deletes (P : ascii → Prop) s t :
  (∀ c, P c → c ≠ ">"%char) → deletes P s t → tagless s → tagless t.
Proof.
  intros HP. induction 1 as [|x l l' Hd IH|x l l' Hx Hd IH]; [done| |].
  - intros [Hx Hl]. split; [|by apply IH]. intros Hlt.
    destruct (Hx Hlt) as [Hh|Hn].
    + destruct l as [|y l]; [by inversion Hh|]. cbn in Hh. simplify_eq. left.
      destruct (deletes_keep_head P ">"%char l l') as [l'' ->]; [|done|done].
      intros Hp. by apply (HP _ Hp).
    + right. intros Hin. apply Hn. by eapply deletes_elem.
  - intros [_ Hl]. by apply IH.
Qed.

(** [C13] No tag survives [clean_text]: [re.search(r'<[^>]+>', clean_text(s))]
    finds nothing. *)
Theorem clean_text_no_tags s : re_search tag_pattern None (clean_text s) = false.
Proof.
  apply tagless_search. eapply tagless_deletes; [|apply clean_text_deletes|].
  - intros c [Hc|Hc] ->; discriminate.
  - apply (strip_tags_tagless s).
Qed.

(** ** No run of three newlines survives *)

(** Every run of newlines, from any position, has at most two. *)
Definition short_nl_runs (s : text) : Prop := ∀ i, run (CChar nl) (drop i s) ≤ 2.

Lemma newlines_match_run prev s :
  run (CChar nl) s < 3 → match_here newlines_pattern prev s = None.
Proof.
  intros Hr. cbn [match_here newlines_pattern].
  destruct (run (CChar nl) s) as [|[|[|n]]]; [done..|lia].
Qed.

Lemma short_runs_search prev s : short_nl_runs s → re_search newlines_pattern prev s = false.
Proof.
  revert prev. induction s as [|c s IH]; intros prev Hs; cbn [re_search];
    rewrite newlines_match_run by (specialize (Hs 0); simpl in *; lia); [done|].
  apply IH. intros i. apply (Hs (S i)).
Qed.

Lemma replicate_nl_runs m : m ≤ 2 → short_nl_runs (replicate m nl).
Proof.
  intros Hm i. rewrite drop_replicate, <- (app_nil_r (replicate _ _)).
  rewrite run_newlines by done. lia.
Qed.

Lemma collapse_short_runs s k : short_nl_runs (collapse_from k s).
Proof.
  revert k. induction s as [|c s IH]; intros k; cbn [collapse_from].
  - apply replicate_nl_runs. lia.
  - case_bool_decide as Hc; [apply IH|]. intros i.
    destruct (decide (i ≤ k `min` 2)).
    + rewrite drop_app_le by (rewrite length_replicate; lia).
      rewrite drop_replicate, run_newlines; [lia|]. by intros [= ?].
    + rewrite drop_app_ge by (rewrite length_replicate; lia).
      rewrite length_replicate. destruct (i - k `min` 2) as [|j] eqn:E; [lia|].
      apply IH.
Qed.

Lemma lstrip_suffix s : ∃ a, s = a ++ lstrip s.
Proof.
  induction s as [|c s [a Ha]]; simpl; [by exists []|].
  destruct (py_isspace c); [exists (c :: a); by rewrite Ha at 1|by exists []].
Qed.

Lemma strip_infix s : ∃ a b, s = a ++ strip s ++ b.
Proof.
  destruct (lstrip_suffix s) as [a Ha]. destruct (lstrip_suffix (rev (lstrip s))) as [b Hb].
  exists a, (rev b). unfold strip. rewrite <- rev_app_distr, <- Hb, rev_involutive.
  exact Ha.
Qed.

Lemma short_runs_infix a x b : short_nl_runs (a ++ x ++ b) → short_nl_runs x.
Proof.
  intros H i. destruct (decide (i ≤ length x)).
  - specialize (H (length a + i)). rewrite drop_app_ge in H by lia.
    replace (length a + i - length a) with i in H by lia.
    rewrite drop_app_le in H by done. pose proof (run_prefix (CChar nl) (drop i x) b). lia.
  - rewrite drop_ge by lia. simpl. lia.
Qed.

(** [C14] No run of three newlines survives [clean_text]:
    [re.search(r'\n{3,}', clean_text(s))] finds nothing. *)
Theorem clean_text_no_triple_newline s :
  re_search newlines_pattern None (clean_text s) = false.
Proof.
  apply short_runs_search. rewrite clean_text_passes.
  set (t := collapse_newlines _). destruct (strip_infix t) as (a & b & Hab).
  apply (short_runs_infix a _ b). rewrite <- Hab. apply collapse_short_runs.
Qed.

(** ** The examples of the specification *)

(** A text that is only tagged content keeps the content:
    [clean_text("<doc>hello</doc>") == "hello"]. *)
Example clean_text_tagged_example : clean_text ⟪"<doc>hello</doc>"⟫ = ⟪"hello"⟫.
Proof. vm_compute. reflexivity. Qed.

(** A page-number line is emptied but its line break stays:
    [clean_text("Page\n42\nEnd") == "Page\n\nEnd"], where the
    specification expects ["Page\nEnd"]. *)
Example clean_text_page_number_example :
  clean_text (⟪"Page"⟫ ++ nl :: ⟪"42"⟫ ++ nl :: ⟪"End"⟫) = ⟪"Page"⟫ ++ [nl; nl] ++ ⟪"End"⟫.
Proof. vm_compute. reflexivity. Qed.

(** Blank lines before a number line go with it, since [\s]
    matches newlines: [clean_text("a\n\n42\n\nb") == "a\n\nb"]. *)
Example clean_text_blank_lines_example :
  clean_text ([ "a"%char; nl; nl ] ++ ⟪"42"⟫ ++ [nl; nl; "b"%char]) = [ "a"%char; nl; nl; "b"%char ].
Proof. vm_compute. reflexivity. Qed.

(** Prose comparisons are taken for a tag: the text between a [<]
    and the next [>] is deleted, [clean_text("if x < 5 and y > 3 then")
    == "if x  3 then"]. *)
Example clean_text_comparison_example :
  clean_text ⟪"if x < 5 and y > 3 then"⟫ = ⟪"if x  3 then"⟫.
Proof. vm_compute. reflexivity. Qed.

(** A line holding a signed integer is kept, since [\d+] has no
    sign: [clean_text("a\n-5\nb") == "a\n-5\nb"]. *)
Example clean_text_signed_number_example :
  clean_text ([ "a"%char; nl ] ++ ⟪"-5"⟫ ++ [nl; "b"%char]) =
  [ "a"%char; nl ] ++ ⟪"-5"⟫ ++ [nl; "b"%char].
Proof. vm_compute. reflexivity. Qed.

End Clean.
