(* ===== verification/Idempotence.v ===== *)
(** * [clean_text] is idempotent

    The specification states [clean(clean(x)) == clean(x)].  Each of the
    four passes of [clean_text] is the identity on an output of
    [clean_text]: it holds no tag, no run of three newlines, no leading
    or trailing whitespace, and no line made only of a number.  The last
    fact is the hard one, because deleting a match can bring text
    together; it is proved on a line view of the number-line pattern:
    [lline prev s] says that a line holding only a number starts at the
    position [(prev, s)], and [line_free prev s] that no such line
    starts at any position of [s].  The [re.sub] of the number lines
    produces a [line_free] text, and collapsing newlines and stripping
    keep it so. *)

From S2P Require Import PyPrelude Regex Clean.
Import Regex Clean.

Module Idempotence.

(** ** [str.strip] *)

Section Strip.
Implicit Types (s : text).

(** A text whose first character, if any, is not whitespace. *)
Definition starts_solid s : Prop := ∀ c, head s = Some c → py_isspace c = false.

Lemma lstrip_solid s : starts_solid (lstrip s).
Proof.
  induction s as [|c s IH]; simpl; [by intros ??|].
  destruct (py_isspace c) eqn:Hc; [done|]. by intros ? [= <-].
Qed.

Lemma lstrip_id s : starts_solid s → lstrip s = s.
Proof.
  destruct s as [|c s]; [done|]. intros Hs. simpl. by rewrite (Hs c).
Qed.

Lemma strip_idem s : strip (strip s) = strip s.
Proof.
  unfold strip. set (a := lstrip s). set (b := lstrip (rev a)).
  rewrite (lstrip_id (rev b)), rev_involutive, (lstrip_id b); [done|apply lstrip_solid|].
  destruct (lstrip_suffix (rev a)) as [e He]. fold b in He.
  apply (f_equal (@rev ascii)) in He. rewrite rev_involutive, rev_app_distr in He.
  intros c Hc. apply (lstrip_solid s). change (head a = Some c). rewrite He.
  revert Hc. by destruct (rev b).
Qed.
End Strip.

(** ** Tags *)

Section Tags.

Lemma strip_tags_unclosed held s :
  Forall (λ c, c ≠ ">"%char) s → strip_tags_from (Inside held) s = "<"%char :: rev held ++ s.
Proof.
  revert held. induction s as [|c s IH]; intros held Hs; cbn [strip_tags_from].
  - by rewrite app_nil_r.
  - invc Hs. rewrite bool_decide_false by done. rewrite IH by done.
    cbn [rev]. by rewrite <- app_assoc.
Qed.

Lemma strip_tags_id s : tagless s → strip_tags s = s.
Proof.
  unfold strip_tags. induction s as [|c s IH]; intros Hs; [done|].
  destruct Hs as [Hc Hs]. cbn [strip_tags_from]. case_bool_decide as Hlt.
  - subst. destruct (Hc eq_refl) as [Hh|Hn].
    + destruct s as [|d s]; [by inversion Hh|]. cbn in Hh. simplify_eq.
      cbn [strip_tags_from]. rewrite bool_decide_true by done.
      pose proof (IH Hs) as E. cbn [strip_tags_from] in E.
      rewrite bool_decide_false in E by done. injection E as ->. done.
    + apply strip_tags_unclosed, not_elem_Forall_neq, Hn.
  - by rewrite IH.
Qed.

Lemma clean_text_tagless s : tagless (clean_text s).
Proof.
  eapply tagless_deletes; [|apply clean_text_deletes|apply (strip_tags_tagless s)].
  intros c [Hc|Hc] ->; discriminate.
Qed.
End Tags.

(** ** Runs of newlines *)

Section Newlines.

Lemma short_runs_tail c s : short_nl_runs (c :: s) → short_nl_runs s.
Proof. intros H i. apply (H (S i)). Qed.

Lemma collapse_id s k :
  k + run (CChar nl) s ≤ 2 → short_nl_runs s → collapse_from k s = replicate k nl ++ s.
Proof.
  revert k. induction s as [|c s IH]; intros k Hk Hs; cbn [collapse_from].
  - rewrite app_nil_r. f_equal. lia.
  - case_bool_decide as Hc.
    + subst. rewrite IH; [by rewrite replicate_S_end, <- app_assoc| |exact (short_runs_tail _ _ Hs)].
      cbn [run cls_test] in Hk. rewrite bool_decide_true in Hk by done. lia.
    + replace (k `min` 2) with k by lia. do 2 f_equal.
      apply (IH 0); [|exact (short_runs_tail _ _ Hs)]. specialize (Hs 1). cbn in Hs. change (drop 0 s) with s in Hs. lia.
Qed.

Lemma clean_text_short_runs s : short_nl_runs (clean_text s).
Proof.
  rewrite clean_text_passes. set (t := collapse_newlines _).
  destruct (strip_infix t) as (a & b & Hab).
  apply (short_runs_infix a _ b). rewrite <- Hab. apply collapse_short_runs.
Qed.
End Newlines.

(** ** Lines made only of a number *)

Abbreviation sp := (λ c, py_isspace c = true).
Abbreviation NLP := number_line_pattern.

Section Lines.
Implicit Types (prev : option ascii) (s l r : text).

(** Whitespace inside a line. *)
Definition hsp (c : ascii) : Prop := py_isspace c = true ∧ c ≠ nl.

(** A line (it holds no newline) of the form [\s*\d+\s*]. *)
Definition number_line l : Prop :=
  ∃ w1 d w2, l = w1 ++ d ++ w2 ∧ Forall hsp w1 ∧ d ≠ [] ∧
    Forall (λ c, py_isdecimal c = true) d ∧ Forall hsp w2.

(** A line holding only a number starts at the position [(prev, s)]. *)
Definition lline prev s : Prop :=
  at_bol prev = true ∧ ∃ l r, s = l ++ r ∧ number_line l ∧ at_eol r = true.

(** No position of [s] starts such a line. *)
Fixpoint line_free prev s : Prop :=
  ¬ lline prev s ∧ match s with [] => True | c :: s' => line_free (Some c) s' end.

Lemma decimal_not_nl c : py_isdecimal c = true → c ≠ nl.
Proof. by intros Hc ->. Qed.

Lemma number_line_no_nl l : number_line l → Forall (λ c, c ≠ nl) l.
Proof.
  intros (w1 & d & w2 & -> & H1 & _ & Hd & H2).
  repeat apply Forall_app_2; (eapply Forall_impl; [done|]);
    [intros c [_ ?]|apply decimal_not_nl|intros c [_ ?]]; done.
Qed.

Lemma number_line_cons l : number_line l → ∃ c l', l = c :: l' ∧ c ≠ nl.
Proof.
  intros (w1 & [|x d] & w2 & -> & H1 & Hd & Hx & _); [done|].
  destruct w1 as [|c w1]; simpl.
  - invc Hx. eexists _, _. split; [reflexivity|]. by apply decimal_not_nl.
  - invc H1. match goal with H : hsp c |- _ => destruct H end. eauto.
Qed.

Lemma lline_nl prev s : ¬ lline prev (nl :: s).
Proof.
  intros (_ & l & r & Hs & Hl & _). destruct (number_line_cons l Hl) as (c & l' & -> & Hc).
  by simplify_eq/=.
Qed.

Lemma lline_nil prev : ¬ lline prev [].
Proof.
  intros (_ & l & r & Hs & Hl & _). destruct (number_line_cons l Hl) as (c & l' & -> & _).
  done.
Qed.

(** Where a line ends is determined by the text. *)
Lemma first_line_eq l1 l2 r1 r2 :
  Forall (λ c, c ≠ nl) l1 → Forall (λ c, c ≠ nl) l2 → at_eol r1 = true → at_eol r2 = true →
  l1 ++ r1 = l2 ++ r2 → l1 = l2.
Proof.
  revert l2. induction l1 as [|x l1 IH]; intros [|y l2] H1 H2 E1 E2 E; simpl in E.
  - done.
  - subst. invc H2. simpl in E1. unfold is_nl in E1. by case_bool_decide.
  - subst. invc H1. simpl in E2. unfold is_nl in E2. by case_bool_decide.
  - invc H1. invc H2. injection E as -> E. f_equal. by apply IH.
Qed.

(** Whether a number line starts at a position depends on its line only. *)
Lemma lline_first_line prev l r r' :
  Forall (λ c, c ≠ nl) l → at_eol r = true → at_eol r' = true →
  lline prev (l ++ r) → lline prev (l ++ r').
Proof.
  intros Hl Hr Hr' (Hb & l0 & r0 & E & Hl0 & Hr0).
  assert (l = l0) as <- by (eapply first_line_eq; [..|exact E]; auto using number_line_no_nl).
  split; [done|]. by exists l, r'.
Qed.

Lemma line_free_app prev b s : line_free prev (b ++ s) → line_free (after prev b) s.
Proof.
  revert prev. induction b as [|c b IH]; intros prev H; [done|].
  rewrite after_cons. apply IH, H.
Qed.

Lemma line_free_nls prev k s :
  line_free prev (replicate k nl ++ s) ↔ line_free (after prev (replicate k nl)) s.
Proof.
  split; [apply line_free_app|]. revert prev.
  induction k as [|k IH]; intros prev H; [done|]. cbn [replicate app].
  split; [apply lline_nl|]. apply IH. cbn [replicate] in H. by rewrite after_cons in H.
Qed.
End Lines.

(** ** The number-line pattern, line by line *)

Section Matching.
Implicit Types (prev : option ascii) (s l r : text).

Lemma line_free_here prev s : line_free prev s → ¬ lline prev s.
Proof. by destruct s as [|??]; intros [H _]. Qed.

Lemma last_eol_some w j s : j ≤ w → at_eol (drop j s) = true → ∃ j', last_eol w s = Some j'.
Proof.
  induction w as [|w IH]; intros Hj Hs; cbn [last_eol].
  - replace j with 0 in Hs by lia. rewrite Hs. eauto.
  - destruct (at_eol (drop (S w) s)) eqn:E; [eauto|].
    apply IH; [|done]. destruct (decide (j = S w)); [subst; congruence|lia].
Qed.

Lemma last_eol_spec w j s : last_eol w s = Some j → at_eol (drop j s) = true ∧ j ≤ w.
Proof.
  induction w as [|w IH]; cbn [last_eol]; intros H.
  - destruct (at_eol (drop 0 s)) eqn:E; simplify_eq. split; [done|lia].
  - destruct (at_eol (drop (S w) s)) eqn:E; [simplify_eq; split; [done|lia]|].
    destruct (IH H). split; [done|lia].
Qed.

Lemma decimal_not_space c : py_isdecimal c = true → py_isspace c = false.
Proof.
  intros Hd. destruct (py_isspace c) eqn:Hs; [|done].
  by rewrite isspace_not_decimal in Hd.
Qed.

Lemma hsp_space : ∀ c, hsp c → cls_test CSpace c = true.
Proof. by intros c [? _]. Qed.

Lemma run_space_digits d t :
  Forall (λ c, py_isdecimal c = true) d → d ≠ [] → run CSpace (d ++ t) = 0.
Proof.
  intros Hd Hne. destruct d as [|x d]; [done|]. invc Hd. cbn [app run cls_test].
  by rewrite decimal_not_space.
Qed.

Lemma run_digits_eol w r :
  Forall sp w → at_eol r = true → run CDigit (w ++ r) = 0.
Proof.
  intros Hw Hr. destruct w as [|x w].
  - destruct r as [|x r]; [done|]. simpl in Hr. unfold is_nl in Hr.
    by apply bool_decide_eq_true in Hr as ->.
  - invc Hw. cbn [app run cls_test]. by rewrite isspace_not_decimal.
Qed.

(** A number line at a position is matched by the pattern. *)
Lemma match_lline prev s : lline prev s → match_here NLP prev s ≠ None.
Proof.
  intros (Hb & l & r & -> & (w1 & d & w2 & -> & H1 & Hne & Hd & H2) & Hr).
  assert (Forall (λ c, cls_test CSpace c = true) w1) as H1' by (eapply Forall_impl; [exact H1|apply hsp_space]).
  assert (Forall (λ c, cls_test CSpace c = true) w2) as H2' by (eapply Forall_impl; [exact H2|apply hsp_space]).
  rewrite number_line_match. unfold number_line_at. rewrite Hb, <- !app_assoc.
  rewrite (run_app _ w1), run_space_digits, Nat.add_0_r by done.
  rewrite advance_eq, take_app_length, drop_app_length. cbv beta iota.
  rewrite (run_app _ d), run_digits_eol, Nat.add_0_r by done.
  rewrite bool_decide_false by (destruct d; simpl; [done|lia]).
  rewrite advance_eq, take_app_length, drop_app_length. cbv beta iota.
  destruct (last_eol_some (run CSpace (w2 ++ r)) (length w2) (w2 ++ r)) as [j ->];
    [rewrite run_app by done; lia|by rewrite drop_app_length|done].
Qed.

(** A match starts at a line start, ends at a line end and consumes. *)
Lemma match_facts prev s p' s' :
  match_here NLP prev s = Some (p', s') →
  at_bol prev = true ∧ at_eol s' = true ∧ length s' < length s.
Proof.
  rewrite number_line_match. unfold number_line_at.
  destruct (at_bol prev) eqn:Hb; [|done]. rewrite !advance_eq. cbv beta iota.
  case_bool_decide as Hd; [done|].
  destruct (last_eol _ _) as [j|] eqn:E; [|done]. rewrite advance_eq. intros [= _ <-].
  destruct (last_eol_spec _ _ _ E) as [Heol _]. split; [done|]. split; [done|].
  set (s1 := drop (run CSpace s) s).
  pose proof (run_le CDigit s1). rewrite !length_drop. subst s1. rewrite length_drop in *. lia.
Qed.
(** Whitespace splits at its last newline and at its first one. *)
Lemma split_bol w :
  Forall sp w → ∃ b w1, w = b ++ w1 ∧ Forall hsp w1 ∧
    ∀ prev, at_bol prev = true → at_bol (after prev b) = true.
Proof.
  induction w as [|c w IH] using rev_ind; intros Hw.
  - exists [], []. by split.
  - apply Forall_app in Hw as [Hw Hc]. invc Hc. destruct (decide (c = nl)) as [->|Hn].
    + exists (w ++ [nl]), []. rewrite app_nil_r. split; [done|]. split; [done|].
      intros prev _. by rewrite after_app.
    + destruct (IH Hw) as (b & w1 & -> & Hw1 & Hb). exists b, (w1 ++ [c]).
      rewrite <- app_assoc. split; [done|]. split; [|done].
      apply Forall_app_2; [done|]. by repeat constructor.
Qed.

Lemma split_eol u t :
  Forall sp u → at_eol t = true → ∃ w2 r, u ++ t = w2 ++ r ∧ Forall hsp w2 ∧ at_eol r = true.
Proof.
  induction 1 as [|c u Hc Hu IH]; intros Ht; [by exists [], t|].
  destruct (decide (c = nl)) as [->|Hn]; [by exists [], (nl :: u ++ t)|].
  destruct (IH Ht) as (w2 & r & E & H2 & Hr). exists (c :: w2), r.
  rewrite <- app_comm_cons, E. split; [done|]. split; [by constructor|done].
Qed.

(** A match of the pattern starts with whitespace and then a number line. *)
Lemma lline_of_match prev s x :
  match_here NLP prev s = Some x → ∃ b s', s = b ++ s' ∧ lline (after prev b) s'.
Proof.
  rewrite number_line_match. unfold number_line_at.
  destruct (at_bol prev) eqn:Hb; [|done]. rewrite !advance_eq. cbv beta iota.
  set (w := run CSpace s). set (s1 := drop w s). set (n := run CDigit s1).
  set (d := take n s1). set (s2 := drop n s1).
  case_bool_decide as Hn; [done|].
  destruct (last_eol (run CSpace s2) s2) as [j|] eqn:E; [|done]. intros _.
  destruct (last_eol_spec _ _ _ E) as [Heol Hj].
  destruct (split_bol (take w s)) as (b & w1 & Hw & H1 & Hbol); [apply (run_take CSpace s)|].
  destruct (split_eol (take j s2) (drop j s2)) as (w2 & r & Hr & H2 & Hr');
    [by apply (run_take_le CSpace s2)|done|].
  assert (s2 = w2 ++ r) as E2 by (rewrite <- Hr; symmetry; apply take_drop).
  assert (s1 = d ++ s2) as E1 by (symmetry; apply take_drop).
  assert (s = take w s ++ s1) as E0 by (symmetry; apply take_drop).
  exists b, ((w1 ++ d ++ w2) ++ r). split.
  { rewrite E0, Hw, E1, E2. by rewrite <- !app_assoc. }
  split; [by apply Hbol|]. exists (w1 ++ d ++ w2), r. split; [done|]. split; [|done].
  exists w1, d, w2. split; [done|]. split; [done|]. split; [|split; [apply (run_take CDigit s1)|done]].
  intros Hd. apply (f_equal length) in Hd. subst d. rewrite length_take in Hd.
  pose proof (run_le CDigit s1). simpl in Hd. lia.
Qed.

(** A text with no number line is one where [re.search] finds nothing. *)
Lemma search_line_free prev s : line_free prev s → re_search NLP prev s = false.
Proof.
  revert prev. induction s as [|c s IH]; intros prev H; cbn [re_search];
    destruct (match_here NLP prev _) as [x|] eqn:E.
  1,3: destruct (lline_of_match _ _ _ E) as (b & s' & Hs & Hl);
       rewrite Hs in H; by apply line_free_app, line_free_here in H.
  - done.
  - apply IH, H.
Qed.
End Matching.

(** ** The [re.sub] of the number lines leaves none *)

Section Scan.
Implicit Types (prev : option ascii) (s l r : text).

Lemma match_not_bol prev s : at_bol prev = false → match_here NLP prev s = None.
Proof. intros Hb. rewrite number_line_match. unfold number_line_at. by rewrite Hb. Qed.

Lemma not_nl_bol c : c ≠ nl → at_bol (Some c) = false.
Proof. intros Hc. cbn. unfold is_nl. by rewrite bool_decide_false. Qed.

Lemma split_line s : ∃ l r, s = l ++ r ∧ Forall (λ c, c ≠ nl) l ∧ at_eol r = true.
Proof.
  induction s as [|c s (l & r & -> & Hl & Hr)]; [by exists [], []|].
  destruct (decide (c = nl)) as [->|Hc]; [by exists [], (nl :: l ++ r)|].
  exists (c :: l), r. split; [done|]. split; [by constructor|done].
Qed.

(** After a character other than a newline, [re.sub] copies the rest of
    its line and the newline that ends it. *)
Lemma sub_first_line c l r :
  c ≠ nl → Forall (λ c, c ≠ nl) l → at_eol r = true →
  ∃ o, sub_at NLP [] (Some c) (l ++ r) = l ++ o ∧ at_eol o = true.
Proof.
  intros Hc Hl. revert c Hc. induction Hl as [|x l Hx Hl IH]; intros c Hc Hr; simpl.
  - destruct r as [|x r].
    + exists []. by rewrite sub_at_end by (by apply match_not_bol, not_nl_bol).
    + rewrite sub_at_skip by (by apply match_not_bol, not_nl_bol).
      eexists. split; [reflexivity|]. exact Hr.
  - rewrite sub_at_skip by (by apply match_not_bol, not_nl_bol).
    destruct (IH x Hx Hr) as (o & -> & Ho). by exists o.
Qed.

(** The output of [re.sub] from a position holds no number line, where
    the output position is the input one or, after a deletion, a line
    start facing the line end of the input. *)
Lemma sub_line_free s prev prev' :
  prev' = prev ∨ (at_bol prev' = true ∧ at_eol s = true) →
  line_free prev' (sub_at NLP [] prev s).
Proof.
  remember (length s) as n eqn:Hn. revert s prev prev' Hn.
  induction n as [n IH] using lt_wf_ind; intros s prev prev' -> Hrel.
  destruct (match_here NLP prev s) as [[p1 s1]|] eqn:E.
  - destruct (match_facts _ _ _ _ E) as (Hb & He & Hlt).
    rewrite (sub_at_match _ _ _ _ p1 s1 E Hlt). apply (IH (length s1) Hlt _ p1); [done|].
    right. split; [|done]. by destruct Hrel as [->|[? _]].
  - destruct s as [|c s1].
    { rewrite sub_at_end by done. split; [apply lline_nil|done]. }
    rewrite sub_at_skip by done. split.
    + intros Hl. destruct (decide (c = nl)) as [->|Hc]; [by apply lline_nl in Hl|].
      destruct (split_line s1) as (l & r & -> & Hl' & Hr).
      destruct (sub_first_line c l r Hc Hl' Hr) as (o & Ho & Hoe). rewrite Ho in Hl.
      apply (lline_first_line prev' (c :: l) o r) in Hl; [|by constructor|done|done].
      destruct Hrel as [->|[_ Heol]].
      * by apply match_lline in Hl.
      * simpl in Heol. unfold is_nl in Heol. by case_bool_decide.
    + apply (IH (length s1)); [simpl; lia|done|by left].
Qed.

Lemma re_sub_line_free s : line_free None (re_sub NLP [] s).
Proof. rewrite re_sub_sub_at. apply sub_line_free. by left. Qed.
End Scan.

(** ** Collapsing newlines and stripping keep a text free of number lines *)

Section Keep.
Implicit Types (prev : option ascii) (s l r : text).

Lemma collapse_S k s : ∃ o, collapse_from (S k) s = nl :: o.
Proof.
  revert k. induction s as [|c s IH]; intros k; cbn [collapse_from].
  - replace (S k `min` 2) with (S (k `min` 1)) by lia. eauto.
  - case_bool_decide; [apply IH|]. replace (S k `min` 2) with (S (k `min` 1)) by lia. eauto.
Qed.

(** Collapsing keeps the first line and a line end after it. *)
Lemma collapse_first_line l r :
  Forall (λ c, c ≠ nl) l → at_eol r = true →
  ∃ o, collapse_from 0 (l ++ r) = l ++ o ∧ at_eol o = true.
Proof.
  induction 1 as [|x l Hx Hl IH]; intros Hr; simpl.
  - destruct r as [|x r]; [by exists []|]. simpl in Hr. unfold is_nl in Hr.
    apply bool_decide_eq_true in Hr as ->. cbn [collapse_from].
    rewrite bool_decide_true by done. destruct (collapse_S 0 r) as [o ->]. by eexists.
  - rewrite bool_decide_false by done. destruct (IH Hr) as (o & -> & Ho). by exists o.
Qed.

Lemma collapse_line_free s k prev :
  line_free prev (replicate k nl ++ s) → line_free prev (collapse_from k s).
Proof.
  revert k prev. induction s as [|c s IH]; intros k prev H; cbn [collapse_from].
  - rewrite <- (app_nil_r (replicate _ _)). apply line_free_nls.
    split; [apply lline_nil|done].
  - case_bool_decide as Hc.
    { subst. apply IH. by rewrite replicate_S_end, <- app_assoc. }
    apply line_free_nls in H as [Hl Hs]. apply line_free_nls.
    replace (after prev (replicate (k `min` 2) nl)) with (after prev (replicate k nl))
      by (destruct k as [|k]; [done|]; replace (S k `min` 2) with (S (k `min` 1)) by lia;
          by rewrite !after_newlines).
    split; [|by apply (IH 0)].
    intros Hl'. apply Hl. destruct (split_line s) as (l & r & -> & Hl0 & Hr).
    destruct (collapse_first_line l r Hl0 Hr) as (o & Ho & Hoe). rewrite Ho in Hl'.
    by apply (lline_first_line _ (c :: l) o r) in Hl'; [|constructor|..].
Qed.

Lemma lstrip_spaces s : ∃ a, s = a ++ lstrip s ∧ Forall sp a.
Proof.
  induction s as [|c s (a & Ha & Hsp)]; [by exists []|]. simpl.
  destruct (py_isspace c) eqn:Hc; [|by exists []].
  exists (c :: a). split; [simpl; by rewrite <- Ha|by constructor].
Qed.

Lemma lline_prepend p q w t :
  at_bol p = true → Forall hsp w → lline q t → lline p (w ++ t).
Proof.
  intros Hp Hw (_ & l & r & -> & (w1 & d & w2 & -> & H1 & Hd) & Hr).
  split; [done|]. exists (w ++ w1 ++ d ++ w2), r. rewrite !app_assoc.
  split; [done|]. split; [|done]. exists (w ++ w1), d, w2. rewrite !app_assoc.
  split; [done|]. split; [by apply Forall_app_2|done].
Qed.

Lemma lline_extend p x e : Forall sp e → lline p x → lline p (x ++ e).
Proof.
  intros He (Hp & l & r & -> & Hl & Hr). split; [done|]. destruct r as [|y r].
  - destruct (split_eol e [] He eq_refl) as (w2' & r' & E & H2' & Hr').
    rewrite app_nil_r in E. rewrite app_nil_r, E, app_assoc.
    exists (l ++ w2'), r'. split; [done|]. split; [|done].
    destruct Hl as (w1 & d & w2 & -> & H1 & Hd & Hdg & H2).
    exists w1, d, (w2 ++ w2'). rewrite !app_assoc. split; [done|].
    repeat split; [done..|by apply Forall_app_2].
  - exists l, ((y :: r) ++ e). by rewrite app_assoc.
Qed.

Lemma line_free_drop_sp p u e : Forall sp e → line_free p (u ++ e) → line_free p u.
Proof.
  intros He. revert p. induction u as [|c u IH]; intros p H.
  - split; [apply lline_nil|done].
  - destruct H as [Hl Hs]. split; [|by apply IH]. intros Hl'. by apply Hl, (lline_extend p (c :: u) e).
Qed.

Lemma line_free_lstrip s : line_free None s → line_free None (lstrip s).
Proof.
  destruct (lstrip_spaces s) as (a & Ha & Hsp). rewrite Ha at 1. intros H.
  pose proof (line_free_app None a _ H) as Ht.
  destruct (lstrip s) as [|c t] eqn:E; [split; [apply lline_nil|done]|].
  split; [|apply Ht]. intros Hl.
  destruct (split_bol a Hsp) as (b & w1 & -> & Hw1 & Hbol).
  rewrite <- app_assoc in H. apply line_free_app, line_free_here in H.
  apply H, (lline_prepend _ None); [by apply Hbol|done..].
Qed.

Lemma line_free_strip s : line_free None s → line_free None (strip s).
Proof.
  intros H. unfold strip. apply line_free_lstrip in H.
  destruct (lstrip_spaces (rev (lstrip s))) as (a & Ha & Hsp).
  apply (line_free_drop_sp None _ (rev a)); [by apply Forall_rev|].
  by rewrite <- rev_app_distr, <- Ha, rev_involutive.
Qed.
End Keep.

Lemma clean_text_line_free s : line_free None (clean_text s).
Proof.
  rewrite clean_text_passes. apply line_free_strip.
  apply (collapse_line_free _ 0), re_sub_line_free.
Qed.

(** ** The theorems *)

(** [C15] No line made only of a number survives [clean_text]:
    [re.search(r'^\s*\d+\s*$', clean_text(s), flags=re.MULTILINE)]
    finds nothing. *)
Theorem clean_text_no_number_line s :
  re_search number_line_pattern None (clean_text s) = false.
Proof. apply search_line_free, clean_text_line_free. Qed.

(** Each pass is the identity on an output of [clean_text]. *)
Lemma clean_text_fixpoint s : clean_text (clean_text s) = clean_text s.
Proof.
  rewrite (clean_text_passes (clean_text s)), strip_tags_id by apply clean_text_tagless.
  rewrite re_sub_sub_at, sub_at_no_match by apply search_line_free, clean_text_line_free.
  pose proof (clean_text_short_runs s) as Hr.
  unfold collapse_newlines. rewrite (collapse_id _ 0); [|specialize (Hr 0); done|done].
  cbn [replicate app]. rewrite clean_text_passes. apply strip_idem.
Qed.

(** [C1] [clean_text] is idempotent: [clean_text(clean_text(s)) ==
    clean_text(s)] for every text. *)
Theorem clean_text_idempotent s : clean_text (clean_text s) = clean_text s.
Proof. apply clean_text_fixpoint. Qed.

End Idempotence.
