(* ===== verification/CleanData.v ===== *)
(** * [main] of [src/clean_data.py]: cleaning every [.txt] file

    The two directories are modelled as their entries: a [gmap] from file
    name to a file (its decoded text) or a sub-directory.  [os.listdir]
    returns the names in an unspecified order, so the listing is an
    argument.  Each file is read, cleaned and written inside a [try]
    that catches every exception: an error is an event of the log, and
    the loop goes on. *)

From stdpp Require Import gmap.
From S2P Require Import PyPrelude Regex Clean.
Import Clean.

Module CleanData.

Inductive entry := EFile (t : text) | EDir.

(** A path: absent, a plain file, or a directory with its entries. *)
Inductive dir := Missing | NotDir | Present (d : gmap string entry).

(** The exceptions [open] can raise here. *)
Inductive os_error := FileNotFound | IsADirectory | NotADirectory.

Record fs := { source_dir : dir; clean_dir : dir }.

(** What [main] prints for a [.txt] file. *)
Inductive event := Cleaned (name : string) | Failed (name : string) (e : os_error).

Definition event_name (ev : event) : string :=
  match ev with Cleaned n | Failed n _ => n end.

(** [str.endswith(suf)] *)
Definition ends_with (suf s : string) : bool :=
  String.eqb (String.substring (String.length s - String.length suf) (String.length suf) s) suf.

(** [open(path, "r", encoding="utf-8", errors="ignore").read()] *)
Definition read_file (src : gmap string entry) (name : string) : result os_error text :=
  match src !! name with
  | Some (EFile t) => Ok t
  | Some EDir => Raise IsADirectory
  | None => Raise FileNotFound
  end.

(** [open(path, "w", encoding="utf-8").write(t)] in [CLEAN_DIR] *)
Definition write_file (cd : dir) (name : string) (t : text) : result os_error dir :=
  match cd with
  | Present d =>
      match d !! name with
      | Some EDir => Raise IsADirectory
      | _ => Ok (Present (<[name := EFile t]> d))
      end
  | NotDir => Raise NotADirectory
  | Missing => Raise FileNotFound
  end.

(** The [try] block of one file and its [except]. *)
Definition process_file (src : gmap string entry) (cd : dir) (name : string) : dir * event :=
  match (t ← read_file src name; write_file cd name (clean_text t)) with
  | Ok cd' => (cd', Cleaned name)
  | Raise e => (cd, Failed name e)
  end.

(** [for filename in os.listdir(SOURCE_DIR): if filename.endswith(".txt"): ...] *)
Fixpoint clean_files (src : gmap string entry) (cd : dir) (names : list string)
    : dir * list event :=
  match names with
  | [] => (cd, [])
  | n :: ns =>
      if ends_with ".txt" n then
        let '(cd1, ev) := process_file src cd n in
        let '(cd2, evs) := clean_files src cd1 ns in
        (cd2, ev :: evs)
      else clean_files src cd ns
  end.

(** [if not os.path.exists(CLEAN_DIR): os.makedirs(CLEAN_DIR)] *)
Definition makedirs_if_missing (cd : dir) : dir :=
  match cd with Missing => Present ∅ | _ => cd end.

(** [main()]: the final file system, and the log or the exception that
    escapes ([os.listdir] of a missing source directory). *)
Definition main (listing : list string) (st : fs) : fs * result os_error (list event) :=
  let cd := makedirs_if_missing (clean_dir st) in
  match source_dir st with
  | Present src =>
      let '(cd', evs) := clean_files src cd listing in
      ({| source_dir := source_dir st; clean_dir := cd' |}, Ok evs)
  | Missing => ({| source_dir := Missing; clean_dir := cd |}, Raise FileNotFound)
  | NotDir => ({| source_dir := NotDir; clean_dir := cd |}, Raise NotADirectory)
  end.

(** ** What a run leaves in [CLEAN_DIR] *)

(** The entry of [CLEAN_DIR] under [n] once [n] has been processed. *)
Definition cleaned_entry (src d : gmap string entry) (n : string) : option entry :=
  if ends_with ".txt" n then
    match src !! n, d !! n with
    | Some (EFile _), Some EDir => d !! n
    | Some (EFile t), _ => Some (EFile (clean_text t))
    | _, _ => d !! n
    end
  else d !! n.

Lemma cleaned_entry_ext src d1 d2 n :
  d1 !! n = d2 !! n → cleaned_entry src d1 n = cleaned_entry src d2 n.
Proof. intros H. unfold cleaned_entry. by rewrite H. Qed.

Lemma process_present src d n :
  ends_with ".txt" n = true →
  ∃ d1 ev, process_file src (Present d) n = (Present d1, ev) ∧ event_name ev = n ∧
    ∀ m, d1 !! m = if bool_decide (m = n) then cleaned_entry src d n else d !! m.
Proof.
  intros Htxt. unfold process_file, cleaned_entry, read_file, write_file.
  rewrite Htxt. destruct (src !! n) as [[t|]|] eqn:Hs; simpl;
    [destruct (d !! n) as [[t'|]|] eqn:Hd; simpl|..];
    eexists _, _; (split; [reflexivity|split; [done|]]); intros m;
    case_bool_decide; subst; rewrite ?lookup_insert_eq, ?lookup_insert_ne; auto.
Qed.

(** Processing a name twice leaves what processing it once left. *)
Lemma cleaned_entry_idem src d d1 n :
  d1 !! n = cleaned_entry src d n → cleaned_entry src d1 n = cleaned_entry src d n.
Proof.
  unfold cleaned_entry. intros H. destruct (ends_with ".txt" n); [|done].
  rewrite H. destruct (src !! n) as [[t|]|]; [|done..].
  by destruct (d !! n) as [[|]|].
Qed.

Lemma clean_files_present src d names :
  ∃ d' evs, clean_files src (Present d) names = (Present d', evs) ∧
    map event_name evs = filter (λ n, ends_with ".txt" n = true) names ∧
    ∀ m, d' !! m = if bool_decide (m ∈ names) then cleaned_entry src d m else d !! m.
Proof.
  revert d. induction names as [|n ns IH]; intros d; simpl.
  - eexists _, _. split; [done|]. split; [done|]. intros m.
    done.
  - destruct (ends_with ".txt" n) eqn:Htxt.
    + destruct (process_present src d n Htxt) as (d1 & ev & -> & Hev & Hd1).
      destruct (IH d1) as (d' & evs & -> & Hevs & Hd').
      eexists _, _. split; [done|]. rewrite filter_cons_True by done.
      split; [by rewrite map_cons, Hev, Hevs|]. intros m. rewrite Hd'.
      destruct (decide (m = n)) as [->|Hne].
      * rewrite (bool_decide_true (n ∈ n :: ns)) by set_solver.
        case_bool_decide; [|by rewrite Hd1, bool_decide_true].
        apply cleaned_entry_idem. by rewrite Hd1, bool_decide_true.
      * rewrite (bool_decide_ext (m ∈ n :: ns) (m ∈ ns)) by set_solver.
        rewrite (cleaned_entry_ext src d1 d m); [|by rewrite Hd1, bool_decide_false].
        case_bool_decide; [done|]. by rewrite Hd1, bool_decide_false.
    + destruct (IH d) as (d' & evs & -> & Hevs & Hd').
      eexists _, _. split; [done|]. rewrite filter_cons_False by (by rewrite Htxt).
      split; [done|]. intros m. rewrite Hd'.
      destruct (decide (m = n)) as [->|Hne].
      * unfold cleaned_entry. rewrite Htxt. by repeat case_bool_decide.
      * by rewrite (bool_decide_ext (m ∈ n :: ns) (m ∈ ns)) by set_solver.
Qed.

(** [C16] When [data/] is a directory and [data_clean/] is not a plain
    file, [main] returns normally, logs one event per [.txt] name of
    the listing in listing order, and leaves under each listed name the
    cleaned text of the source file when it is a readable file and the
    target is not a directory; every other entry is unchanged. *)
Theorem main_cleans listing st src :
  source_dir st = Present src → clean_dir st ≠ NotDir →
  let d0 := match clean_dir st with Present d => d | _ => ∅ end in
  ∃ d' evs, main listing st = ({| source_dir := Present src; clean_dir := Present d' |}, Ok evs) ∧
    map event_name evs = filter (λ n, ends_with ".txt" n = true) listing ∧
    ∀ m, d' !! m = if bool_decide (m ∈ listing) then cleaned_entry src d0 m else d0 !! m.
Proof.
  intros Hsrc Hcd d0. unfold main. rewrite Hsrc.
  assert (makedirs_if_missing (clean_dir st) = Present d0) as ->.
  { unfold d0. by destruct (clean_dir st). }
  destruct (clean_files_present src d0 listing) as (d' & evs & -> & ? & ?).
  by exists d', evs.
Qed.

(** ** A second run *)

(** Whether processing a name fails depends on the target being a
    directory, and cleaning keeps that. *)
Lemma process_event src d1 d2 n :
  (d1 !! n = Some EDir ↔ d2 !! n = Some EDir) →
  (process_file src (Present d1) n).2 = (process_file src (Present d2) n).2.
Proof.
  intros Hd. unfold process_file, read_file, write_file.
  destruct (src !! n) as [[t|]|]; [|done..]. cbn.
  destruct (d1 !! n) as [[|]|], (d2 !! n) as [[|]|]; naive_solver.
Qed.

Lemma cleaned_entry_dir src d n : cleaned_entry src d n = Some EDir ↔ d !! n = Some EDir.
Proof.
  unfold cleaned_entry. destruct (ends_with _ _); [|done].
  destruct (src !! n) as [[t|]|], (d !! n) as [[|]|]; naive_solver.
Qed.

(** What a run leaves is a fixed point of the same run. *)
Lemma clean_files_fix src d names d' evs :
  clean_files src (Present d) names = (Present d', evs) →
  clean_files src (Present d') names = (Present d', evs).
Proof.
  revert d evs. induction names as [|n ns IH]; intros d evs H; simpl in H |- *;
    [by injection H as -> <-|].
  destruct (ends_with ".txt" n) eqn:Htxt; [|by apply (IH d)].
  destruct (process_present src d n Htxt) as (d1 & ev & Hp & _ & Hd1). rewrite Hp in H.
  destruct (clean_files src (Present d1) ns) as [cd evs'] eqn:Hc. injection H as -> <-.
  destruct (clean_files_present src d1 ns) as (d'' & evs'' & Hc' & _ & Hd').
  rewrite Hc in Hc'. injection Hc' as <- <-.
  assert (d' !! n = cleaned_entry src d n) as Hn.
  { assert (d1 !! n = cleaned_entry src d n) as Hd1n by (rewrite Hd1; by rewrite bool_decide_true).
    rewrite Hd'. case_bool_decide; [by apply cleaned_entry_idem|done]. }
  destruct (process_present src d' n Htxt) as (d2 & ev2 & Hp2 & _ & Hd2).
  assert (d2 = d') as ->.
  { apply map_eq. intros m. rewrite Hd2. case_bool_decide as Hm; [subst m|done].
    rewrite (cleaned_entry_idem src d d' n Hn). by rewrite Hn. }
  assert (ev2 = ev) as ->.
  { replace ev2 with (process_file src (Present d') n).2 by by rewrite Hp2.
    replace ev with (process_file src (Present d) n).2 by by rewrite Hp.
    apply process_event. by rewrite Hn, cleaned_entry_dir. }
  rewrite Hp2. by rewrite (IH d1 evs' Hc).
Qed.

Lemma clean_files_notdir src names : (clean_files src NotDir names).1 = NotDir.
Proof.
  induction names as [|n ns IH]; simpl; [done|].
  destruct (ends_with ".txt" n); [|done].
  assert ((process_file src NotDir n).1 = NotDir) as Hp.
  { unfold process_file, read_file. by destruct (src !! n) as [[|]|]. }
  destruct (process_file src NotDir n) as [cd1 ev]. simpl in Hp. subst cd1.
  by destruct (clean_files src NotDir ns).
Qed.

Lemma makedirs_idem cd : makedirs_if_missing (makedirs_if_missing cd) = makedirs_if_missing cd.
Proof. by destruct cd. Qed.

(** [C17] Running [clean_data.py] a second time on what the first run
    left changes nothing and prints the same log, whatever the two
    directories held: the run is idempotent. *)
Theorem main_idempotent listing st :
  main listing (main listing st).1 = main listing st.
Proof.
  destruct st as [[| | src] cd]; unfold main; cbn -[makedirs_if_missing clean_files];
    rewrite ?makedirs_idem; [done..|].
  destruct (makedirs_if_missing cd) as [| |d] eqn:E.
  - by destruct cd.
  - pose proof (clean_files_notdir src listing) as Hn.
    destruct (clean_files src NotDir listing) as [cd' evs] eqn:Hc. simpl in Hn. subst cd'.
    cbn. by rewrite Hc.
  - destruct (clean_files_present src d listing) as (d' & evs & Hc & _).
    rewrite Hc. cbn. by rewrite (clean_files_fix src d listing d' evs Hc).
Qed.

(** ** The log and the errors *)

(** The event of a [.txt] name, read off the directories before the
    run: the error of [open] for reading, else the error of [open] for
    writing in [CLEAN_DIR], else success. *)
Definition expected_event (src : gmap string entry) (cd : dir) (n : string) : event :=
  match src !! n with
  | None => Failed n FileNotFound
  | Some EDir => Failed n IsADirectory
  | Some (EFile _) =>
      match cd with
      | Present d => match d !! n with Some EDir => Failed n IsADirectory | _ => Cleaned n end
      | NotDir => Failed n NotADirectory
      | Missing => Failed n FileNotFound
      end
  end.

Lemma process_file_event src cd n : (process_file src cd n).2 = expected_event src cd n.
Proof.
  unfold process_file, expected_event, read_file, write_file.
  destruct (src !! n) as [[t|]|]; [|done..]. cbn.
  destruct cd as [| |d]; [done..|]. by destruct (d !! n) as [[|]|].
Qed.

(** Writing a cleaned file never changes which names are directories. *)
Lemma process_file_expected src cd n m :
  expected_event src (process_file src cd n).1 m = expected_event src cd m.
Proof.
  unfold process_file, read_file, write_file.
  destruct (src !! n) as [[t|]|]; [|done..]. cbn.
  destruct cd as [| |d]; [done..|]. destruct (d !! n) as [[|]|] eqn:Hn; [|done|];
    cbn; unfold expected_event; destruct (src !! m) as [[|]|]; try done;
    destruct (decide (m = n)) as [->|Hne];
    rewrite ?lookup_insert_eq, ?lookup_insert_ne by done; rewrite ?Hn; done.
Qed.

Lemma clean_files_log src cd names :
  (clean_files src cd names).2 =
  map (expected_event src cd) (filter (λ n, ends_with ".txt" n = true) names).
Proof.
  revert cd. induction names as [|n ns IH]; intros cd; [done|]. cbn [clean_files].
  destruct (ends_with ".txt" n) eqn:Htxt.
  - rewrite filter_cons_True by done. cbn [map]. rewrite <- (process_file_event src cd n).
    destruct (process_file src cd n) as [cd1 ev] eqn:Hp.
    pose proof (IH cd1) as IH1. destruct (clean_files src cd1 ns) as [cd2 evs].
    cbn in IH1 |- *. rewrite IH1. f_equal. apply map_ext. intros m.
    replace cd1 with (process_file src cd n).1 by by rewrite Hp. apply process_file_expected.
  - rewrite filter_cons_False by (by rewrite Htxt). apply IH.
Qed.

(** [C25] The log and the exceptions of [main]: every [.txt] name of the
    listing gets its own event, in listing order, and an [OSError] of one
    file is caught and logged without stopping the others or depending
    on them: the file missing or a directory in [data/], the target a
    directory, or [data_clean/] a plain file, in which case every file
    fails with [NotADirectoryError].  Only a missing or non-directory
    [data/] makes [os.listdir] raise out of [main]. *)
Theorem main_log listing st :
  (main listing st).2 =
  match source_dir st with
  | Present src =>
      Ok (map (expected_event src (makedirs_if_missing (clean_dir st)))
              (filter (λ n, ends_with ".txt" n = true) listing))
  | Missing => Raise FileNotFound
  | NotDir => Raise NotADirectory
  end.
Proof.
  unfold main. destruct (source_dir st) as [| |src]; [done..|].
  pose proof (clean_files_log src (makedirs_if_missing (clean_dir st)) listing) as H.
  destruct (clean_files _ _ _) as [cd' evs]. cbn in H |- *. by rewrite H.
Qed.

(** A concrete run: one text file, one other file. *)
Definition sample_fs : fs :=
  {| source_dir := Present (<["a.txt" := EFile ⟪"<p>x</p>"⟫%py]> (<["b.md" := EFile []]> ∅));
     clean_dir := Missing |}.

Lemma main_cleans_witness :
  source_dir sample_fs = Present (<["a.txt" := EFile ⟪"<p>x</p>"⟫%py]> (<["b.md" := EFile []]> ∅))
  ∧ clean_dir sample_fs ≠ NotDir
  ∧ main ["b.md"; "a.txt"] sample_fs =
      ({| source_dir := source_dir sample_fs;
          clean_dir := Present (<["a.txt" := EFile ⟪"x"⟫%py]> ∅) |}, Ok [Cleaned "a.txt"]).
Proof.
  split; [reflexivity|]. split; [discriminate|].
  pose proof (main_cleans ["b.md"; "a.txt"] sample_fs _ eq_refl ltac:(discriminate)).
  vm_compute. reflexivity.
Defined.

End CleanData.
