(* ===== verification/Prompt.v ===== *)
(** * The prompt of [src/app.py]

    [ChatPromptTemplate.from_template(template)] makes one human message
    whose text is [template] formatted with Python's [str.format]
    semantics for the fields [{context}] and [{question}].  The chain
    passes the retriever's result, a Python list of [Document]s, as
    [context]; [str.format] inserts [str] of that list, that is the
    [repr] of each document, with Python's quoting and escaping of the
    page contents. *)

From S2P Require Import PyPrelude.
Local Open Scope py_scope.

Module Prompt.

(** ** Python [repr] *)

(** [str.isprintable] on code points below 256. *)
Definition py_isprintable (c : ascii) : bool :=
  let n := nat_of_ascii c in
  ((32 <=? n) && (n <=? 126)) || ((161 <=? n) && (n <=? 255) && negb (n =? 173)).

Definition hex_digit (n : nat) : ascii :=
  Ascii.ascii_of_nat (if n <? 10 then 48 + n else 87 + n).

Definition backslash : ascii := "\"%char.

(** One character inside a [repr] quoted with [q]. *)
Definition repr_char (q c : ascii) : text :=
  if bool_decide (c = q) || bool_decide (c = backslash) then [backslash; c]
  else if bool_decide (c = "009"%char) then [backslash; "t"%char]
  else if bool_decide (c = nl) then [backslash; "n"%char]
  else if bool_decide (c = "013"%char) then [backslash; "r"%char]
  else if py_isprintable c then [c]
  else let n := nat_of_ascii c in
       [backslash; "x"%char; hex_digit (n / 16); hex_digit (n mod 16)].

(** [repr(s)] for a [str]: double quotes when [s] holds a single quote
    and no double quote, single quotes otherwise. *)
Definition py_repr (s : text) : text :=
  let q := if bool_decide ("'"%char ∈ s) && negb (bool_decide (dquote ∈ s))
           then dquote else "'"%char in
  q :: (s ≫= repr_char q) ++ [q].

(** [sep.join(xs)] *)
Fixpoint join (sep : text) (xs : list text) : text :=
  match xs with
  | [] => []
  | [x] => x
  | x :: xs' => x ++ sep ++ join sep xs'
  end.

(** ** Documents *)

(** A LangChain [Document] as the retriever returns it: an optional id,
    string metadata (the loader sets [source]) and the page content. *)
Record document := {
  doc_id : option text;
  metadata : list (text * text);
  page_content : text
}.

(** [repr] of a [dict] of strings. *)
Definition dict_repr (m : list (text * text)) : text :=
  "{"%char :: join ⟪", "⟫ (map (λ kv, py_repr kv.1 ++ ⟪": "⟫ ++ py_repr kv.2) m) ++ ["}"%char].

(** [repr(doc)]: fields equal to their default ([id=None],
    [metadata={}]) are left out, the others in declaration order. *)
Definition document_repr (d : document) : text :=
  let fields :=
    match doc_id d with Some i => [⟪"id="⟫ ++ py_repr i] | None => [] end ++
    match metadata d with [] => [] | m => [⟪"metadata="⟫ ++ dict_repr m] end ++
    [⟪"page_content="⟫ ++ py_repr (page_content d)] in
  ⟪"Document("⟫ ++ join ⟪", "⟫ fields ++ [")"%char].

(** [str(docs)] for a list of documents. *)
Definition list_repr (docs : list document) : text :=
  "["%char :: join ⟪", "⟫ (map document_repr docs) ++ ["]"%char].

(** ** [str.format] *)

Inductive format_error :=
| KeyError (field : text)
| IndexError
| ValueError.

(** The keyword arguments of [format], first binding first. *)
Fixpoint lookup_var (k : text) (env : list (text * text)) : option text :=
  match env with
  | [] => None
  | (k', v) :: env' => if bool_decide (k = k') then Some v else lookup_var k env'
  end.

(** Where the formatter is: in literal text, just after a [{], inside a
    field name (reversed), or just after a [}]. *)
Inductive fstate := FText | FOpen | FField (name : text) | FClose.

Fixpoint format_go (env : list (text * text)) (st : fstate) (s : text)
    : result format_error text :=
  match st, s with
  | FText, [] => Ok []
  | FText, c :: s' =>
      if bool_decide (c = "{"%char) then format_go env FOpen s'
      else if bool_decide (c = "}"%char) then format_go env FClose s'
      else cons c <$> format_go env FText s'
  | FOpen, [] => Raise ValueError
  | FOpen, c :: s' =>
      if bool_decide (c = "{"%char) then cons c <$> format_go env FText s'
      else if bool_decide (c = "}"%char) then Raise IndexError
      else format_go env (FField [c]) s'
  | FField n, [] => Raise ValueError
  | FField n, c :: s' =>
      if bool_decide (c = "}"%char) then
        match lookup_var (rev n) env with
        | Some v => app v <$> format_go env FText s'
        | None => Raise (KeyError (rev n))
        end
      else if bool_decide (c = "{"%char) then Raise ValueError
      else format_go env (FField (c :: n)) s'
  | FClose, c :: s' =>
      if bool_decide (c = "}"%char) then cons c <$> format_go env FText s'
      else Raise ValueError
  | FClose, [] => Raise ValueError
  end.

(** [template.format(...)] with keyword arguments, for templates whose fields are
    plain names, as in [app.py]'s template: [{{] and [}}] are escapes, a
    field is looked up by its whole text, an unknown name raises
    [KeyError], an empty field [{}] (automatic numbering, with no
    positional argument) [IndexError], and an unmatched brace or a [{]
    inside a field name [ValueError].  Conversions ([!r]), format specs
    ([:...]), attribute and index access and numbered fields ([{0}]) are
    not modelled. *)
Definition format (template : text) (env : list (text * text)) : result format_error text :=
  format_go env FText template.

(** ** The template of [app.py] *)

Definition fallback_answer : text :=
  ⟪"I cannot find that information in the official documents."⟫.

(** The text of [template] before [{context}], between the two fields,
    and after [{question}]. *)
Definition instructions : text :=
  nl :: ⟪"You are a helpful AI assistant for the University. "⟫ ++
  nl :: ⟪"Answer questions strictly based on the provided context. "⟫ ++
  nl :: ⟪"If the answer is not in the context, say "⟫ ++
  dquote :: fallback_answer ++ dquote :: nl :: nl :: ⟪"Context:"⟫ ++ [nl].

Definition between_fields : text := nl :: nl :: ⟪"Question:"⟫ ++ [nl].

Definition after_question : text := [nl].

Definition template : text :=
  instructions ++ ⟪"{context}"⟫ ++ between_fields ++ ⟪"{question}"⟫ ++ after_question.

Inductive role := User | Assistant.

Record message := { msg_role : role; content : text }.

(** [prompt.invoke({"context": docs, "question": q})]: one human message. *)
Definition render_prompt (docs : list document) (question : text)
    : result format_error (list message) :=
  body ← format template [(⟪"context"⟫, list_repr docs); (⟪"question"⟫, question)];
  mret [{| msg_role := User; content := body |}].

(** ** What the model receives *)

(** The rendered message, written out. *)
Definition prompt_text (docs : list document) (question : text) : text :=
  instructions ++ list_repr docs ++ between_fields ++ question ++ after_question.

Lemma render_prompt_text docs question :
  render_prompt docs question =
  Ok [{| msg_role := User; content := prompt_text docs question |}].
Proof. reflexivity. Qed.

(** [C26] Formatting the template is a single pass: the values of
    [context] and [question] are inserted verbatim, whatever braces they
    hold, between the template's literal pieces, and it never fails. *)
Theorem format_template_spec ctx question :
  format template [(⟪"context"⟫, ctx); (⟪"question"⟫, question)] =
  Ok (instructions ++ ctx ++ between_fields ++ question ++ after_question).
Proof. reflexivity. Qed.

(** [C27] Whatever was retrieved, the empty list included, the message
    holds the fallback sentence in double quotes, word for word. *)
Theorem render_prompt_has_fallback docs question :
  ∃ m pre post, render_prompt docs question = Ok [m] ∧
    content m = pre ++ [dquote] ++ fallback_answer ++ [dquote] ++ post.
Proof.
  rewrite render_prompt_text.
  exists {| msg_role := User; content := prompt_text docs question |},
    (nl :: ⟪"You are a helpful AI assistant for the University. "⟫ ++
     nl :: ⟪"Answer questions strictly based on the provided context. "⟫ ++
     nl :: ⟪"If the answer is not in the context, say "⟫),
    (nl :: nl :: ⟪"Context:"⟫ ++ [nl] ++ list_repr docs ++ between_fields ++
     question ++ after_question).
  split; [reflexivity|]. cbn [content]. unfold prompt_text, instructions.
  rewrite <- ?app_assoc. reflexivity.
Qed.

(** The context is the Python [repr] of the document list, not the
    concatenated page contents: a page with a line break reaches the
    model with the two characters [\n] and with its metadata. *)
Example context_is_repr :
  list_repr [{| doc_id := None; metadata := [(⟪"source"⟫, ⟪"data_clean/a.txt"⟫)];
                page_content := ⟪"9pm"⟫ ++ [nl] ++ ⟪"Main St"⟫ |}] =
  ⟪"[Document(metadata={'source': 'data_clean/a.txt'}, page_content='9pm\nMain St')]"⟫.
Proof. vm_compute. reflexivity. Qed.

End Prompt.
