(* ===== verification/Services.v ===== *)
(** * The collaborators of [src/app.py], as an interface

    The script calls LangChain and Mistral objects it does not implement:
    [DirectoryLoader]/[TextLoader], [RecursiveCharacterTextSplitter],
    [MistralAIEmbeddings] with [Chroma], and [ChatMistralAI] with
    [StrOutputParser].  [Services] states what the script needs of them:
    their operations, with the errors they may raise, and the one law
    the script relies on (a similarity search with [k] returns at most
    [k] documents).  The script is verified against any instance;
    [SpecServices] gives one built from the specification. *)

From stdpp Require Import gmap.
From S2P Require Import PyPrelude Prompt.
Import Prompt.

Module Services.

(** The exceptions that can escape a run of the script. *)
Inductive app_error :=
| LoadError              (** [DirectoryLoader.load()] failed *)
| EmbeddingError         (** a call of the embedding service failed *)
| CompletionError        (** a call of the chat model failed *)
| TemplateError (e : format_error).

(** The cleaned corpus directory [data_clean/]: file name to text. *)
Abbreviation corpus := (gmap string text).

Class Services := {
  (** [DirectoryLoader(DATA_PATH, glob="*.txt", loader_cls=TextLoader,
      loader_kwargs={"encoding": "utf-8"}).load()] *)
  load_corpus : corpus → result app_error (list document);
  (** [RecursiveCharacterTextSplitter(chunk_size=1000,
      chunk_overlap=200).split_documents] *)
  split_documents : list document → list document;
  (** A Chroma collection together with its embedding function. *)
  store : Type;
  (** [Chroma.from_documents(chunks, embeddings, persist_directory=DB_PATH)]:
      what [DB_PATH] holds afterwards, and the store or the error. *)
  from_documents : list document → option store * result app_error store;
  (** [vector_db.as_retriever(search_type="similarity",
      search_kwargs={"k": k}).invoke(q)] *)
  similarity_search : store → nat → text → result app_error (list document);
  (** [(ChatMistralAI(model="mistral-large-latest", temperature=0.1)
      | StrOutputParser()).invoke(messages)] *)
  chat : list message → result app_error text;

  (** Laws. *)
  similarity_search_at_most_k st k q docs :
    similarity_search st k q = Ok docs → length docs ≤ k;
  from_documents_persists chunks st :
    (from_documents chunks).2 = Ok st → (from_documents chunks).1 = Some st
}.

End Services.
