(* ===== verification/Chunker.v ===== *)
(** * The chunker of the specification (section 4.3)

    [app.py] calls LangChain's [RecursiveCharacterTextSplitter], which is
    not code of the repository; this file models the contract the
    specification gives it instead: windows of [chunk_size] characters,
    consecutive windows sharing [chunk_overlap] characters, the last one
    possibly shorter.  The window loop is written with fuel; the length
    of the text is enough fuel.  Every window is a piece of its text,
    and every chunk of [split_documents] keeps its document's metadata,
    which is what the grounding theorem of [Pipeline] relies on. *)

From S2P Require Import PyPrelude Prompt.
Import Prompt.

Module Chunker.

(** [u in s] for Python strings: [u] occurs in [s]. *)
Definition substring (u s : text) : Prop := ∃ a b, s = a ++ u ++ b.

Section Windows.
Context (W O : nat).

(** Split [s] into windows of [W] characters starting every [W - O]. *)
Fixpoint windows_fuel (fuel : nat) (s : text) : list text :=
  match fuel with
  | 0 => [s]
  | S f =>
      if length s <=? W then [s]
      else take W s :: windows_fuel f (drop (W - O) s)
  end.

Definition windows (s : text) : list text := windows_fuel (length s) s.

Context (HOW : O < W).

Lemma windows_fuel_enough f1 f2 s :
  length s ≤ f1 → length s ≤ f2 → windows_fuel f1 s = windows_fuel f2 s.
Proof.
  revert f2 s. induction f1 as [|f1 IH]; intros [|f2] s H1 H2; simpl.
  - done.
  - destruct (Nat.leb_spec (length s) W); [done|lia].
  - destruct (Nat.leb_spec (length s) W); [done|lia].
  - destruct (Nat.leb_spec (length s) W); [done|]. f_equal.
    apply IH; rewrite length_drop; lia.
Qed.

(** The equation of [windows], without fuel. *)
Lemma windows_eq s :
  windows s = if length s <=? W then [s] else take W s :: windows (drop (W - O) s).
Proof.
  unfold windows at 1. rewrite (windows_fuel_enough (length s) (S (length s))) by lia.
  simpl. destruct (Nat.leb_spec (length s) W); [done|]. f_equal.
  apply windows_fuel_enough; rewrite length_drop; lia.
Qed.

(** Induction along the windows: on the length of the text. *)
Lemma windows_ind (P : text → Prop) :
  (∀ s, length s ≤ W → P s) →
  (∀ s, W < length s → P (drop (W - O) s) → P s) →
  ∀ s, P s.
Proof.
  intros Hbase Hstep s. remember (length s) as n eqn:Hn.
  revert s Hn. induction n as [n IH] using lt_wf_ind; intros s ->.
  destruct (decide (length s ≤ W)); [by apply Hbase|].
  apply Hstep; [lia|]. apply (IH (length (drop (W - O) s))); [|done].
  rewrite length_drop. lia.
Qed.

Lemma windows_head s : ∃ cs, windows s = take W s :: cs.
Proof.
  rewrite windows_eq. destruct (Nat.leb_spec (length s) W); [|eauto].
  exists []. by rewrite take_ge.
Qed.

(** Every window has at most [W] characters. *)
Lemma windows_bounded s : Forall (λ c, length c ≤ W) (windows s).
Proof.
  induction s using windows_ind; rewrite windows_eq.
  - destruct (Nat.leb_spec (length s) W); [|lia]. repeat constructor. lia.
  - destruct (Nat.leb_spec (length s) W); [lia|]. constructor; [|done].
    rewrite length_take. lia.
Qed.

(** The windows give back the text: the first window, then each next
    window without the [O] characters it shares with the previous one. *)
Lemma windows_concat s :
  match windows s with
  | c :: cs => c ++ concat (map (drop O) cs) = s
  | [] => False
  end.
Proof.
  induction s as [s Hs|s Hs IH] using windows_ind; rewrite windows_eq.
  - destruct (Nat.leb_spec (length s) W); [|lia]. by rewrite app_nil_r.
  - destruct (Nat.leb_spec (length s) W); [lia|].
    destruct (windows_head (drop (W - O) s)) as [cs Hcs]. rewrite Hcs in IH |- *.
    cbn [map concat].
    assert (O ≤ length (take W (drop (W - O) s))) as Hlen
      by (rewrite length_take, length_drop; lia).
    rewrite <- drop_app_le by done. rewrite IH, drop_drop.
    replace (W - O + O) with W by lia. apply take_drop.
Qed.

(** The number of windows: one for a text of at most [W] characters,
    else [⌈(L - O) / (W - O)⌉]. *)
Lemma windows_length s :
  length (windows s) =
  if length s <=? W then 1 else (length s - O + (W - O) - 1) / (W - O).
Proof.
  induction s as [s Hs|s Hs IH] using windows_ind; rewrite windows_eq.
  - by destruct (Nat.leb_spec (length s) W); [|lia].
  - destruct (Nat.leb_spec (length s) W); [lia|]. cbn [length]. rewrite IH, length_drop.
    destruct (Nat.leb_spec (length s - (W - O)) W).
    + apply (Nat.div_unique _ _ _ (length s - O + (W - O) - 1 - 2 * (W - O))); lia.
    + replace (length s - O + (W - O) - 1)
        with (length s - (W - O) - O + (W - O) - 1 + 1 * (W - O)) by lia.
      rewrite Nat.div_add by lia. lia.
Qed.

(** Consecutive windows share [O] characters. *)
Lemma windows_overlap s i c1 c2 :
  windows s !! i = Some c1 → windows s !! S i = Some c2 → drop (W - O) c1 = take O c2.
Proof.
  revert i. induction s as [s Hs|s Hs IH] using windows_ind; intros i H1 H2;
    rewrite windows_eq in H1, H2.
  - destruct (Nat.leb_spec (length s) W); [|lia]. by destruct i.
  - destruct (Nat.leb_spec (length s) W); [lia|]. destruct i as [|i].
    + simplify_eq/=. destruct (windows_head (drop (W - O) s)) as [cs Hcs].
      rewrite Hcs in H2. simplify_eq/=.
      rewrite take_take, skipn_firstn_comm. f_equal; lia.
    + by apply (IH i).
Qed.

(** Every window is a piece of the text. *)
Lemma windows_substring s : Forall (λ c, substring c s) (windows s).
Proof.
  induction s as [s Hs|s Hs IH] using windows_ind; rewrite windows_eq.
  - destruct (Nat.leb_spec (length s) W); [|lia]. repeat constructor.
    exists [], []. by rewrite app_nil_r.
  - destruct (Nat.leb_spec (length s) W); [lia|]. constructor.
    + exists [], (drop W s). by rewrite take_drop.
    + eapply Forall_impl; [exact IH|]. intros c (a & b & Hab).
      exists (take (W - O) s ++ a), b. by rewrite <- app_assoc, <- Hab, take_drop.
Qed.

End Windows.

Definition chunk_size : nat := 1000.
Definition chunk_overlap : nat := 200.

(** [split_text] of the specification's splitter. *)
Definition split_text (s : text) : list text := windows chunk_size chunk_overlap s.

(** [split_documents]: every window keeps the metadata of its document. *)
Definition split_documents (docs : list document) : list document :=
  docs ≫= λ d, map (λ w, {| doc_id := None; metadata := metadata d; page_content := w |})
                   (split_text (page_content d)).

(** [C28] The chunks give the document back: the first chunk followed
    by every later chunk without its first 200 characters, the ones it
    shares with the chunk before it. *)
Theorem split_text_roundtrip s :
  match split_text s with
  | c :: cs => c ++ concat (map (drop chunk_overlap) cs) = s
  | [] => False
  end.
Proof. apply windows_concat. unfold chunk_overlap, chunk_size. lia. Qed.

(** [C29] A chunk has at most 1000 characters, consecutive chunks share
    200 characters, and a text of [L > 1000] characters gives
    [⌈(L - 200) / 800⌉] chunks (one chunk otherwise). *)
Theorem split_text_bounds s :
  Forall (λ c, length c ≤ chunk_size) (split_text s) ∧
  (∀ i c1 c2, split_text s !! i = Some c1 → split_text s !! S i = Some c2 →
     drop (chunk_size - chunk_overlap) c1 = take chunk_overlap c2) ∧
  length (split_text s) =
    if length s <=? chunk_size then 1
    else (length s - chunk_overlap + (chunk_size - chunk_overlap) - 1)
         / (chunk_size - chunk_overlap).
Proof.
  assert (chunk_overlap < chunk_size) as H by (unfold chunk_overlap, chunk_size; lia).
  split; [by apply windows_bounded|]. split; [|by apply windows_length].
  intros i c1 c2. by apply windows_overlap.
Qed.

(** A chunk of [split_documents] is a piece of one of the documents,
    and it keeps that document's metadata. *)
Lemma split_documents_origin docs c :
  c ∈ split_documents docs →
  ∃ d, d ∈ docs ∧ metadata c = metadata d ∧ substring (page_content c) (page_content d).
Proof.
  unfold split_documents. intros (d & Hc & Hd)%list_elem_of_bind.
  apply list_elem_of_fmap in Hc as (w & -> & Hw). exists d. split; [done|]. split; [done|].
  assert (chunk_overlap < chunk_size) as H by (unfold chunk_overlap, chunk_size; lia).
  pose proof (windows_substring _ _ H (page_content d)) as Hs.
  rewrite Forall_forall in Hs. exact (Hs w Hw).
Qed.

End Chunker.
