(* ===== verification/VectorStore.v ===== *)
(** * The vector store of the specification (sections 4.4 and 4.5)

    Chroma and the Mistral embeddings are hosted or third-party code;
    this file models the contract the specification states for them: a
    store is the list of (chunk, embedding) records, and a similarity
    search embeds the query and returns the [k] records nearest to it by
    squared Euclidean distance, nearest first. *)

From stdpp Require Import sorting.
From Stdlib Require Import ZArith.
From S2P Require Import PyPrelude Prompt.
Import Prompt.

Module VectorStore.

Abbreviation vec := (list Z).

Record record := { rec_doc : document; rec_vec : vec }.

(** Squared Euclidean distance (the [l2] space of Chroma). *)
Fixpoint dist (u v : vec) : Z :=
  match u, v with
  | x :: u', y :: v' => ((x - y) * (x - y) + dist u' v')%Z
  | _, _ => 0%Z
  end.

Section ByKey.
Context (key : record → Z).

Definition by_key : relation record := λ r1 r2, (key r1 ≤ key r2)%Z.

#[local] Instance by_key_dec : RelDecision by_key := λ r1 r2, decide (key r1 ≤ key r2)%Z.
#[local] Instance by_key_total : Total by_key.
Proof. intros r1 r2. unfold by_key. lia. Qed.
#[local] Instance by_key_trans : Transitive by_key.
Proof. intros r1 r2 r3. unfold by_key. lia. Qed.

(** The records in increasing order of [key]. *)
Definition rank (st : list record) : list record := merge_sort by_key st.

Lemma rank_perm st : rank st ≡ₚ st.
Proof. apply merge_sort_Permutation. Qed.

Lemma rank_sorted st : StronglySorted by_key (rank st).
Proof. apply StronglySorted_merge_sort; typeclasses eauto. Qed.

(** In a sorted list, what is kept is no further than what is dropped. *)
Lemma take_drop_sorted (l : list record) k x y :
  StronglySorted by_key l → x ∈ take k l → y ∈ drop k l → (key x ≤ key y)%Z.
Proof.
  intros Hs Hx Hy. rewrite <- (take_drop k l) in Hs.
  change (by_key x y). by eapply StronglySorted_app_1_elem_of.
Qed.
End ByKey.

(** [similarity_search(q_vec, k)]: the [k] nearest records. *)
Definition nearest (st : list record) (k : nat) (qv : vec) : list record :=
  take k (rank (λ r, dist qv (rec_vec r)) st).

(** A search returns records of the store. *)
Lemma nearest_subset st k qv r : r ∈ nearest st k qv → r ∈ st.
Proof.
  unfold nearest. intros (i & Hi & _)%elem_of_take.
  rewrite <- (rank_perm (λ r, dist qv (rec_vec r)) st). by eapply list_elem_of_lookup_2.
Qed.

(** A search returns [min k n] records from a store of [n]: never
    more than [k], never fewer than [min k n], none from an empty store. *)
Theorem nearest_length st k qv : length (nearest st k qv) = k `min` length st.
Proof.
  unfold nearest. rewrite length_take, (Permutation_length (rank_perm _ st)). lia.
Qed.

(** [C30] A search returns the nearest records, nearest first: with the
    records it leaves out it makes up the store, and none of those is
    nearer to the query than a record it returns. *)
Theorem nearest_top_k st k qv :
  let d := λ r, dist qv (rec_vec r) in
  StronglySorted (by_key d) (nearest st k qv) ∧
  ∃ rest, nearest st k qv ++ rest ≡ₚ st ∧
    ∀ x y, x ∈ nearest st k qv → y ∈ rest → (d x ≤ d y)%Z.
Proof.
  intros d. unfold nearest. split.
  - pose proof (rank_sorted d st) as Hs. rewrite <- (take_drop k (rank d st)) in Hs.
    by apply StronglySorted_app_1_l in Hs.
  - exists (drop k (rank d st)). split.
    + rewrite take_drop. apply rank_perm.
    + intros x y. apply take_drop_sorted, rank_sorted.
Qed.

End VectorStore.
