(* ===== verification/SpecServices.v ===== *)
(** * An instance of [Services] built from the specification

    The loader of section 4.2 (every [.txt] file of [data_clean/], with
    its path as [source]), the chunker of section 4.3, the index of
    section 4.4 (every chunk embedded; an embedding error propagates and
    leaves no store) and the retriever of section 4.5, over an embedding
    function and a chat model given as parameters.  It shows that the
    laws of [Services] can be met, and gives the concrete services the
    witnesses of [App] run on.  [chroma_services] differs in one point,
    the one where the Chroma library departs from the specification: a
    failed build leaves a collection in [DB_PATH]. *)

From stdpp Require Import gmap.
From S2P Require Import PyPrelude Prompt CleanData Services Chunker VectorStore.
Import Prompt Services VectorStore.

Module SpecServices.

Section Spec.
Context (embed : text → result app_error vec).
Context (llm : list message → result app_error text).

(** [DirectoryLoader(DATA_PATH, glob="*.txt", loader_cls=TextLoader)]:
    one document per [.txt] file, its path as [source]. *)
Definition spec_load_corpus (c : corpus) : result app_error (list document) :=
  Ok (map (λ nt, {| doc_id := None;
                    metadata := [(⟪"source"⟫%py,
                                  String.list_ascii_of_string ("data_clean/" ++ nt.1))];
                    page_content := nt.2 |})
          (filter (λ nt, CleanData.ends_with ".txt" nt.1 = true) (map_to_list c))).

(** [embed_documents]: every chunk, or the first error. *)
Fixpoint embed_all (docs : list document) : result app_error (list record) :=
  match docs with
  | [] => Ok []
  | d :: ds =>
      v ← embed (page_content d);
      rs ← embed_all ds;
      mret ({| rec_doc := d; rec_vec := v |} :: rs)
  end.

Definition spec_from_documents (chunks : list document)
    : option (list record) * result app_error (list record) :=
  match embed_all chunks with
  | Ok rs => (Some rs, Ok rs)
  | Raise e => (None, Raise e)
  end.

Definition spec_similarity_search (st : list record) (k : nat) (q : text)
    : result app_error (list document) :=
  qv ← embed q; mret (map rec_doc (nearest st k qv)).

Lemma spec_similarity_search_at_most_k st k q docs :
  spec_similarity_search st k q = Ok docs → length docs ≤ k.
Proof.
  unfold spec_similarity_search. destruct (embed q) as [qv|e]; [|done].
  intros [= <-]. rewrite length_map. unfold nearest. rewrite length_take. lia.
Qed.

Lemma spec_from_documents_persists chunks st :
  (spec_from_documents chunks).2 = Ok st → (spec_from_documents chunks).1 = Some st.
Proof.
  unfold spec_from_documents. destruct (embed_all chunks); [|done]. by intros [= ->].
Qed.

Lemma embed_all_ok chunks vs :
  Forall2 (λ d v, embed (page_content d) = Ok v) chunks vs →
  embed_all chunks = Ok (zip_with (λ d v, {| rec_doc := d; rec_vec := v |}) chunks vs).
Proof. induction 1 as [|d v ds vs Hv _ IH]; [done|]. cbn. by rewrite Hv, IH. Qed.

Lemma embed_all_docs chunks rs : embed_all chunks = Ok rs → map rec_doc rs = chunks.
Proof.
  revert rs. induction chunks as [|d ds IH]; intros rs; cbn; [by intros [= <-]|].
  destruct (embed (page_content d)) as [v|]; [|done]. cbn.
  destruct (embed_all ds) as [rs'|] eqn:E; [|done]. intros [= <-]. cbn. by rewrite IH.
Qed.

(** The store built from chunks holds those chunks. *)
Lemma spec_from_documents_docs chunks st :
  (spec_from_documents chunks).2 = Ok st → map rec_doc st = chunks.
Proof.
  unfold spec_from_documents. destruct (embed_all chunks) eqn:E; [|done].
  intros [= <-]. by apply embed_all_docs.
Qed.

(** A search returns documents of the store. *)
Lemma spec_similarity_search_from st k q docs d :
  spec_similarity_search st k q = Ok docs → d ∈ docs → d ∈ map rec_doc st.
Proof.
  unfold spec_similarity_search. destruct (embed q) as [qv|]; [|done].
  intros [= <-] (r & -> & Hr)%list_elem_of_fmap. apply list_elem_of_fmap.
  exists r. split; [done|]. by eapply nearest_subset.
Qed.

(** Indexing: when the embedding service answers for every chunk,
    the store holds exactly one record per chunk, in order, pairing the
    chunk with its vector, and it is persisted; no chunk gives an empty
    store, without error. *)
Theorem spec_index_all chunks vs :
  Forall2 (λ d v, embed (page_content d) = Ok v) chunks vs →
  let st := zip_with (λ d v, {| rec_doc := d; rec_vec := v |}) chunks vs in
  spec_from_documents chunks = (Some st, Ok st) ∧ length st = length chunks ∧
  map rec_doc st = chunks.
Proof.
  intros Hvs st. unfold spec_from_documents. rewrite (embed_all_ok _ _ Hvs).
  pose proof (Forall2_length _ _ _ Hvs) as Hl. split; [done|]. subst st.
  rewrite length_zip_with. split; [lia|].
  clear Hvs. revert vs Hl. induction chunks as [|d ds IH]; intros [|v vs] Hl; simplify_eq/=; [done|].
  f_equal. by apply IH.
Qed.

Definition spec_services : Services := {|
  load_corpus := spec_load_corpus;
  split_documents := Chunker.split_documents;
  store := list record;
  from_documents := spec_from_documents;
  similarity_search := spec_similarity_search;
  chat := llm;
  similarity_search_at_most_k := spec_similarity_search_at_most_k;
  from_documents_persists := spec_from_documents_persists
|}.
(** [Chroma.from_documents] as the library runs it: the collection is
    created under [persist_directory] before the chunks are embedded, so
    an embedding error leaves an empty persisted collection behind. *)
Definition chroma_from_documents (chunks : list document)
    : option (list record) * result app_error (list record) :=
  match embed_all chunks with
  | Ok rs => (Some rs, Ok rs)
  | Raise e => (Some [], Raise e)
  end.

Lemma chroma_from_documents_persists chunks st :
  (chroma_from_documents chunks).2 = Ok st → (chroma_from_documents chunks).1 = Some st.
Proof.
  unfold chroma_from_documents. destruct (embed_all chunks); [|done]. by intros [= ->].
Qed.

Definition chroma_services : Services := {|
  load_corpus := spec_load_corpus;
  split_documents := Chunker.split_documents;
  store := list record;
  from_documents := chroma_from_documents;
  similarity_search := spec_similarity_search;
  chat := llm;
  similarity_search_at_most_k := spec_similarity_search_at_most_k;
  from_documents_persists := chroma_from_documents_persists
|}.
End Spec.

End SpecServices.
