(* ===== verification/Pipeline.v ===== *)
(** * From [clean_data.py] to [app.py]: the corpus the assistant loads

    The two programs meet in [data_clean/]: [clean_data.main] writes it,
    and [load_data] reads it with [DirectoryLoader(DATA_PATH,
    glob="*.txt")].  [corpus_of] is the view of a directory the loader
    has: its plain files and their texts.  When [data_clean/] did not
    exist before [main] ran, every document the loader returns is the
    cleaned text of the source file of the same name, and so (by the
    idempotence of [clean_text]) a fixed point of [clean_text]. *)

From stdpp Require Import gmap.
From S2P Require Import PyPrelude Clean Idempotence CleanData Prompt Services Chunker VectorStore SpecServices.
Import Clean Idempotence CleanData Prompt VectorStore SpecServices.

Module Pipeline.

(** The files of a directory, as [DirectoryLoader] sees them. *)
Definition corpus_of (d : gmap string entry) : Services.corpus :=
  omap (λ e, match e with EFile t => Some t | EDir => None end) d.

(** What a run of [main] leaves in a [data_clean/] it created. *)
Lemma main_fresh_entries listing src d' evs :
  main listing {| source_dir := Present src; clean_dir := Missing |} =
    ({| source_dir := Present src; clean_dir := Present d' |}, Ok evs) →
  ∀ n t', corpus_of d' !! n = Some t' →
    ∃ t, src !! n = Some (EFile t) ∧ ends_with ".txt" n = true ∧ n ∈ listing ∧
      t' = clean_text t.
Proof.
  intros Hmain n t' Hn. unfold main in Hmain. cbn in Hmain.
  destruct (clean_files_present src ∅ listing) as (d'' & evs' & Hc & _ & Hd).
  rewrite Hc in Hmain. injection Hmain as <- _.
  unfold corpus_of in Hn. rewrite lookup_omap, Hd in Hn.
  case_bool_decide as Hin; [|by rewrite lookup_empty in Hn].
  unfold cleaned_entry in Hn. destruct (ends_with ".txt" n) eqn:Htxt;
    [|by rewrite lookup_empty in Hn].
  rewrite lookup_empty in Hn. destruct (src !! n) as [[t|]|]; simplify_eq/=.
  by exists t.
Qed.

(** Where a loaded document comes from, when [main] created [data_clean/]. *)
Lemma loaded_document_origin listing src d' evs docs doc :
  main listing {| source_dir := Present src; clean_dir := Missing |} =
    ({| source_dir := Present src; clean_dir := Present d' |}, Ok evs) →
  spec_load_corpus (corpus_of d') = Ok docs → doc ∈ docs →
  ∃ n t, src !! n = Some (EFile t) ∧ n ∈ listing ∧
    metadata doc = [(⟪"source"⟫%py, String.list_ascii_of_string ("data_clean/" ++ n))] ∧
    page_content doc = clean_text t.
Proof.
  intros Hmain Hload. unfold spec_load_corpus in Hload. injection Hload as <-.
  intros (nt & -> & Hnt)%list_elem_of_fmap.
  apply list_elem_of_filter in Hnt as [_ Hnt]. destruct nt as [n t'].
  apply elem_of_map_to_list in Hnt.
  destruct (main_fresh_entries _ _ _ _ Hmain _ _ Hnt) as (t & Hs & _ & Hin & ->).
  by exists n, t.
Qed.

(** [C18] Every document the assistant loads from a [data_clean/] that
    [clean_data.py] created is a [.txt] file of the listing whose text
    is [clean_text] of the source file of the same name, with
    [data_clean/<name>] as its source, and it is already clean:
    cleaning it again changes nothing. *)
Theorem loaded_documents_clean listing src d' evs docs :
  main listing {| source_dir := Present src; clean_dir := Missing |} =
    ({| source_dir := Present src; clean_dir := Present d' |}, Ok evs) →
  spec_load_corpus (corpus_of d') = Ok docs →
  Forall (λ doc, ∃ n t, src !! n = Some (EFile t) ∧ n ∈ listing ∧
            metadata doc = [(⟪"source"⟫%py, String.list_ascii_of_string ("data_clean/" ++ n))] ∧
            page_content doc = clean_text t ∧
            clean_text (page_content doc) = page_content doc) docs.
Proof.
  intros Hmain Hload. apply Forall_forall. intros doc Hdoc.
  destruct (loaded_document_origin _ _ _ _ _ _ Hmain Hload Hdoc) as (n & t & Hs & Hin & Hm & Hc).
  exists n, t. rewrite Hc. repeat split; [done..|]. apply clean_text_fixpoint.
Qed.

Lemma loaded_documents_clean_witness :
  main ["b.md"; "a.txt"] sample_fs =
    ({| source_dir := source_dir sample_fs;
        clean_dir := Present (<["a.txt" := EFile ⟪"x"⟫%py]> ∅) |}, Ok [Cleaned "a.txt"]) ∧
  spec_load_corpus (corpus_of (<["a.txt" := EFile ⟪"x"⟫%py]> ∅)) =
    Ok [{| doc_id := None; metadata := [(⟪"source"⟫%py, ⟪"data_clean/a.txt"⟫%py)];
           page_content := ⟪"x"⟫%py |}] ∧
  Forall (λ doc, ∃ n t, (<["a.txt" := EFile ⟪"<p>x</p>"⟫%py]> (<["b.md" := EFile []]> ∅) : gmap string entry) !! n = Some (EFile t) ∧
            n ∈ ["b.md"; "a.txt"] ∧
            metadata doc = [(⟪"source"⟫%py, String.list_ascii_of_string ("data_clean/" ++ n))] ∧
            page_content doc = clean_text t ∧
            clean_text (page_content doc) = page_content doc)
    [{| doc_id := None; metadata := [(⟪"source"⟫%py, ⟪"data_clean/a.txt"⟫%py)];
        page_content := ⟪"x"⟫%py |}].
Proof.
  assert (main ["b.md"; "a.txt"] sample_fs =
    ({| source_dir := source_dir sample_fs;
        clean_dir := Present (<["a.txt" := EFile ⟪"x"⟫%py]> ∅) |}, Ok [Cleaned "a.txt"])) as Hm
    by (vm_compute; reflexivity).
  assert (spec_load_corpus (corpus_of (<["a.txt" := EFile ⟪"x"⟫%py]> ∅)) =
    Ok [{| doc_id := None; metadata := [(⟪"source"⟫%py, ⟪"data_clean/a.txt"⟫%py)];
           page_content := ⟪"x"⟫%py |}]) as Hl by (vm_compute; reflexivity).
  split; [exact Hm|]. split; [exact Hl|].
  exact (loaded_documents_clean ["b.md"; "a.txt"] _ _ _ _ Hm Hl).
Defined.

(** [C19] Grounding of the answers: when [clean_data.py] created
    [data_clean/] and the store was built from it by the specification's
    loader, splitter and index, every document a similarity search
    returns, the documents the prompt is built from, is a piece of the
    cleaned text of a listed [.txt] file of the source directory, and
    names [data_clean/<name>] as its source. *)
Theorem retrieved_chunks_grounded embed listing src d' evs docs st k q rs :
  main listing {| source_dir := Present src; clean_dir := Missing |} =
    ({| source_dir := Present src; clean_dir := Present d' |}, Ok evs) →
  spec_load_corpus (corpus_of d') = Ok docs →
  (spec_from_documents embed (Chunker.split_documents docs)).2 = Ok st →
  spec_similarity_search embed st k q = Ok rs →
  Forall (λ r, ∃ n t, src !! n = Some (EFile t) ∧ n ∈ listing ∧
            metadata r = [(⟪"source"⟫%py, String.list_ascii_of_string ("data_clean/" ++ n))] ∧
            Chunker.substring (page_content r) (clean_text t)) rs.
Proof.
  intros Hmain Hload Hbuild Hsearch. apply Forall_forall. intros r Hr.
  pose proof (spec_similarity_search_from _ _ _ _ _ _ Hsearch Hr) as Hst.
  rewrite (spec_from_documents_docs _ _ _ Hbuild) in Hst.
  destruct (Chunker.split_documents_origin _ _ Hst) as (d & Hd & Hmeta & Hsub).
  destruct (loaded_document_origin _ _ _ _ _ _ Hmain Hload Hd) as (n & t & Hs & Hin & Hm & Hc).
  exists n, t. rewrite Hmeta, <- Hc. by repeat split.
Qed.

Definition sample_source : gmap string entry :=
  <["a.txt" := EFile ⟪"<p>x</p>"⟫%py]> (<["b.md" := EFile []]> ∅).
Definition sample_doc : document :=
  {| doc_id := None; metadata := [(⟪"source"⟫%py, ⟪"data_clean/a.txt"⟫%py)];
     page_content := ⟪"x"⟫%py |}.
Definition sample_store : list record := [{| rec_doc := sample_doc; rec_vec := [] |}].

Lemma retrieved_chunks_grounded_witness :
  main ["b.md"; "a.txt"] {| source_dir := Present sample_source; clean_dir := Missing |} =
    ({| source_dir := Present sample_source;
        clean_dir := Present (<["a.txt" := EFile ⟪"x"⟫%py]> ∅) |}, Ok [Cleaned "a.txt"]) ∧
  spec_load_corpus (corpus_of (<["a.txt" := EFile ⟪"x"⟫%py]> ∅)) = Ok [sample_doc] ∧
  (spec_from_documents (λ _, Ok []) (Chunker.split_documents [sample_doc])).2 = Ok sample_store ∧
  spec_similarity_search (λ _, Ok []) sample_store 5 ⟪"rules"⟫%py = Ok [sample_doc] ∧
  Forall (λ r, ∃ n t, sample_source !! n = Some (EFile t) ∧ n ∈ ["b.md"; "a.txt"] ∧
            metadata r = [(⟪"source"⟫%py, String.list_ascii_of_string ("data_clean/" ++ n))] ∧
            Chunker.substring (page_content r) (clean_text t)) [sample_doc].
Proof.
  assert (main ["b.md"; "a.txt"] {| source_dir := Present sample_source; clean_dir := Missing |} =
    ({| source_dir := Present sample_source;
        clean_dir := Present (<["a.txt" := EFile ⟪"x"⟫%py]> ∅) |}, Ok [Cleaned "a.txt"])) as H1
    by (vm_compute; reflexivity).
  assert (spec_load_corpus (corpus_of (<["a.txt" := EFile ⟪"x"⟫%py]> ∅)) = Ok [sample_doc])
    as H2 by (vm_compute; reflexivity).
  assert ((spec_from_documents (λ _, Ok []) (Chunker.split_documents [sample_doc])).2
          = Ok sample_store) as H3 by (vm_compute; reflexivity).
  assert (spec_similarity_search (λ _, Ok []) sample_store 5 ⟪"rules"⟫%py = Ok [sample_doc])
    as H4 by (vm_compute; reflexivity).
  split; [exact H1|]. split; [exact H2|]. split; [exact H3|]. split; [exact H4|].
  exact (retrieved_chunks_grounded (λ _, Ok []) _ _ _ _ _ _ _ _ _ H1 H2 H3 H4).
Defined.

End Pipeline.
