(* ===== verification/App.v ===== *)
(** * [src/app.py]: the Streamlit script as a state machine

    Streamlit runs the whole script again on every interaction.  One run
    is [script inp], a computation in the monad [M]: it reads and writes
    the state that outlives a run (the two directories, the process
    environment, the [st.cache_resource] cache of [load_data] and
    [st.session_state.messages]), appends to the page it draws, and ends
    normally, at an [st.stop()], or with an exception.  [step] is one run
    on the inputs of that interaction, or a change of the directories
    made outside the program; the theorems hold for every [Services]
    instance. *)

From stdpp Require Import gmap.
From S2P Require Import PyPrelude Prompt Services.
Import Prompt Services.
Local Open Scope py_scope.

Module App.

Create HintDb run discriminated.

Section Script.
Context `{SV : Services}.

(** ** State and page *)

Record state := {
  data_dir : option corpus;               (** [DATA_PATH] ([None]: absent) *)
  db_dir : option store;                  (** [DB_PATH] ([None]: absent) *)
  env_key : option text;                  (** [os.environ["MISTRAL_API_KEY"]] *)
  cache : option store;                   (** [st.cache_resource] of [load_data] *)
  messages : option (list message)        (** [st.session_state.messages] *)
}.

(** What a run draws on the page. *)
Inductive ui :=
| UiPageConfig (title : text) (** [st.set_page_config(page_title=title)] *)
| UiTitle | UiCaption | UiHeader
| UiWarning (t : text) | UiSuccess (t : text) | UiError (t : text)
| UiChat (r : role)    (** [st.chat_message(r)]: a chat bubble *)
| UiWrite (t : text)   (** [.write(t)], [st.write(t)] into it *)
| UiSpinner (t : text). (** [with st.spinner(t):] entered *)

(** How a run ends. *)
Inductive exit (A : Type) := Done (a : A) | Stopped | Raised (e : app_error).
#[global] Arguments Done {A} a.
#[global] Arguments Stopped {A}.
#[global] Arguments Raised {A} e.

(** A run: the state threaded through, the page appended to. *)
Definition M (A : Type) : Type := state → exit A * state * list ui.

#[local] Instance M_ret : MRet M := λ A a s, (Done a, s, []).
#[local] Instance M_bind : MBind M := λ A B f m s,
  match m s with
  | (Done a, s1, o1) => let '(r, s2, o2) := f a s1 in (r, s2, o1 ++ o2)
  | (Stopped, s1, o1) => (Stopped, s1, o1)
  | (Raised e, s1, o1) => (Raised e, s1, o1)
  end.

Definition gets {A} (f : state → A) : M A := λ s, (Done (f s), s, []).
Definition modify (f : state → state) : M unit := λ s, (Done (), f s, []).
Definition emit_all (us : list ui) : M unit := λ s, (Done (), s, us).
Definition emit (u : ui) : M unit := emit_all [u].
Definition stop {A} : M A := λ s, (Stopped, s, []).
Definition lift {A} (r : result app_error A) : M A :=
  λ s, match r with Ok a => (Done a, s, []) | Raise e => (Raised e, s, []) end.

Definition set_db (d : option store) (s : state) : state :=
  {| data_dir := data_dir s; db_dir := d; env_key := env_key s; cache := cache s;
     messages := messages s |}.
Definition set_env (k : text) (s : state) : state :=
  {| data_dir := data_dir s; db_dir := db_dir s; env_key := Some k; cache := cache s;
     messages := messages s |}.
Definition set_cache (c : store) (s : state) : state :=
  {| data_dir := data_dir s; db_dir := db_dir s; env_key := env_key s; cache := Some c;
     messages := messages s |}.
Definition set_messages (ms : list message) (s : state) : state :=
  {| data_dir := data_dir s; db_dir := db_dir s; env_key := env_key s; cache := cache s;
     messages := Some ms |}.

(** ** The script, top to bottom *)

(** [with st.sidebar: ...]: the key gate. *)
Definition sidebar (api_key : text) : M unit :=
  emit UiHeader;;
  if bool_decide (api_key = []) then
    emit (UiWarning ⟪"Please enter your Mistral API key to start."⟫);; stop
  else
    modify (set_env api_key);;
    emit (UiSuccess ⟪"API Key Accepted!"⟫).

(** [@st.cache_resource def load_data()]: a cached value is returned
    without running the body; a body that stops or raises caches nothing. *)
Definition load_data : M store :=
  cached ← gets cache;
  match cached with
  | Some st => mret st
  | None =>
      data ← gets data_dir;
      match data with
      | None => emit (UiError ⟪"Data not found. Please run clean_data.py first."⟫);; stop
      | Some c =>
          emit (UiSpinner ⟪"Processing University Manuals..."⟫);;
          docs ← lift (load_corpus c);
          let chunks := split_documents docs in
          let '(persisted, built) := from_documents chunks in
          modify (set_db persisted);;
          vdb ← lift built;
          modify (set_cache vdb);;
          mret vdb
      end
  end.

(** [if os.path.exists(DB_PATH): ... Chroma(persist_directory=DB_PATH)
    else: vector_db = load_data()] *)
Definition open_vector_db : M store :=
  db ← gets db_dir;
  match db with
  | Some st => mret st
  | None => load_data
  end.

Definition greeting : message :=
  {| msg_role := Assistant;
     content := ⟪"Hello! I can answer questions about Academic Rules, Hostel Policy, and Mass Comm guidelines. What would you like to know?"⟫ |}.

(** [if "messages" not in st.session_state: ...] *)
Definition init_messages : M unit :=
  ms ← gets messages;
  match ms with
  | None => modify (set_messages [greeting])
  | Some _ => mret ()
  end.

(** [st.chat_message(msg["role"]).write(msg["content"])] for each message. *)
Definition chat_ui (ms : list message) : list ui :=
  ms ≫= λ m, [UiChat (msg_role m); UiWrite (content m)].

(** [for msg in st.session_state.messages: ...] *)
Definition show_history : M unit :=
  ms ← gets messages;
  emit_all (chat_ui (default [] ms)).

Definition append_message (m : message) : M unit :=
  ms ← gets messages; modify (set_messages (default [] ms ++ [m])).

Definition retriever_k : nat := 5.

(** [chain.invoke(user_input)] for
    [{"context": retriever, "question": RunnablePassthrough()} | prompt | llm | StrOutputParser()] *)
Definition answer (vdb : store) (q : text) : result app_error text :=
  docs ← similarity_search vdb retriever_k q;
  msgs ← match render_prompt docs q with
         | Ok ms => Ok ms
         | Raise e => Raise (TemplateError e)
         end;
  chat msgs.

(** [if user_input := st.chat_input(): ...] *)
Definition handle_input (vdb : store) (input : option text) : M unit :=
  match input with
  | Some q =>
      if bool_decide (q = []) then mret () else
      let user_msg := {| msg_role := User; content := q |} in
      append_message user_msg;;
      emit (UiChat User);; emit (UiWrite q);;
      emit (UiChat Assistant);;
      response ← lift (answer vdb q);
      emit (UiWrite response);;
      append_message {| msg_role := Assistant; content := response |}
  | None => mret ()
  end.

(** The widget values of one interaction. *)
Record input := { api_key_input : text; chat_input : option text }.

Definition script (inp : input) : M unit :=
  emit (UiPageConfig ⟪"University Bot"⟫);;
  emit UiTitle;; emit UiCaption;;
  sidebar (api_key_input inp);;
  vdb ← open_vector_db;
  init_messages;;
  show_history;;
  handle_input vdb (chat_input inp).

(** ** Runs and the world around them *)

Definition run_state (inp : input) (s : state) : state := (script inp s).1.2.

(** One transition of the world, labelled: a run of the script on the
    inputs of one interaction, with how the run ended, or a change of the
    directories made outside the program (label [None]). *)
Inductive lstep : option (exit unit) → state → state → Prop :=
| lstep_run inp s : lstep (Some (script inp s).1.1) s (run_state inp s)
| lstep_delete_db s : lstep None s (set_db None s)
| lstep_edit_corpus s c :
    lstep None s {| data_dir := c; db_dir := db_dir s; env_key := env_key s;
                    cache := cache s; messages := messages s |}.


(** A run that ended with an exception counts one. *)
Definition raised_count (l : option (exit unit)) : nat :=
  match l with Some (Raised _) => 1 | _ => 0 end.

(** [reach s0 n s]: [s] is reached from [s0] by transitions of which
    [n] are runs that raised. *)
Inductive reach (s0 : state) : nat → state → Prop :=
| reach_refl : reach s0 0 s0
| reach_step n s1 l s2 : reach s0 n s1 → lstep l s1 s2 → reach s0 (n + raised_count l) s2.

(** A fresh process and session: nothing cached, no history, no key. *)
Definition initial (s : state) : Prop :=
  env_key s = None ∧ cache s = None ∧ messages s = None.

(** ** Reasoning about runs *)

Lemma bind_state {A B} (m : M A) (f : A → M B) s :
  ((m ≫= f) s).1.2 =
  match (m s).1.1 with Done a => (f a (m s).1.2).1.2 | _ => (m s).1.2 end.
Proof.
  unfold mbind, M_bind. destruct (m s) as [[[a| |e] s1] o1]; simpl; [|done..].
  by destruct (f a s1) as [[??]?].
Qed.

Lemma bind_exit {A B} (m : M A) (f : A → M B) s :
  ((m ≫= f) s).1.1 =
  match (m s).1.1 with
  | Done a => (f a (m s).1.2).1.1
  | Stopped => Stopped
  | Raised e => Raised e
  end.
Proof.
  unfold mbind, M_bind. destruct (m s) as [[[a| |e] s1] o1]; simpl; [|done..].
  by destruct (f a s1) as [[??]?].
Qed.

(** From a state with [P], [m] reaches a state with [Q], however it ends. *)
Definition lifts (P Q : state → Prop) {A} (m : M A) : Prop := ∀ s, P s → Q (m s).1.2.

(** [m] keeps [P] of the state. *)
Abbreviation keeps P m := (lifts P P m).

Lemma lifts_bind P Q R {A B} (m : M A) (f : A → M B) :
  lifts P Q m → (∀ a, lifts Q R (f a)) → (∀ s, Q s → R s) → lifts P R (m ≫= f).
Proof.
  intros Hm Hf HQR s Hs. rewrite bind_state.
  destruct (m s) as [[[a| |e] s1] o1] eqn:E; simpl; specialize (Hm s Hs); rewrite E in Hm;
    [by apply Hf|auto..].
Qed.

Lemma keeps_bind P {A B} (m : M A) (f : A → M B) :
  keeps P m → (∀ a, keeps P (f a)) → keeps P (m ≫= f).
Proof. intros. by eapply lifts_bind. Qed.

Lemma keeps_ret P {A} (a : A) : keeps P (mret a).
Proof. by intros s. Qed.

Lemma keeps_gets P {A} (f : state → A) : keeps P (gets f).
Proof. by intros s. Qed.

Lemma keeps_emit_all P us : keeps P (emit_all us).
Proof. by intros s. Qed.

Lemma keeps_stop P {A} : keeps P (@stop A).
Proof. by intros s. Qed.

Lemma keeps_lift P {A} (r : result app_error A) : keeps P (lift r).
Proof. intros s. by destruct r. Qed.

Lemma keeps_modify P f : (∀ s, P s → P (f s)) → keeps P (modify f).
Proof. intros Hf s. apply Hf. Qed.

#[local] Hint Resolve keeps_ret keeps_gets keeps_emit_all keeps_stop keeps_lift : run.

(** Split binds and matches, then close what needs no state reasoning. *)
Ltac keeps_split :=
  repeat match goal with
    | |- keeps _ (_ ≫= _) => apply keeps_bind; [|intros ?]
    | |- keeps _ (match ?x with _ => _ end) => destruct x
    | |- keeps _ (emit _) => apply keeps_emit_all
    end; auto with run.

(** The key gate. *)
Lemma sidebar_stop s :
  sidebar [] s = (Stopped, s, [UiHeader; UiWarning ⟪"Please enter your Mistral API key to start."⟫]).
Proof. reflexivity. Qed.

Lemma sidebar_ok k s :
  k ≠ [] → sidebar k s = (Done (), set_env k s, [UiHeader; UiSuccess ⟪"API Key Accepted!"⟫]).
Proof. intros Hk. unfold sidebar. cbn. by rewrite bool_decide_false. Qed.

(** ** The chat history *)

(** The history after the greeting: user turns, each followed by its
    answer or, when the run that took it raised, alone; the index counts
    the turns left without an answer. *)
Inductive turns : nat → list message → Prop :=
| turns_nil : turns 0 []
| turns_answered k q a ts :
    turns k ts →
    turns k ({| msg_role := User; content := q |} :: {| msg_role := Assistant; content := a |} :: ts)
| turns_unanswered k q ts :
    turns k ts → turns (S k) ({| msg_role := User; content := q |} :: ts).

Lemma turns_app k l ts us : turns k ts → turns l us → turns (k + l) (ts ++ us).
Proof. induction 1; intros; simpl; [done|by constructor; auto..]. Qed.

Lemma keeps_messages P (f : state → state) :
  (∀ s, messages (f s) = messages s) → keeps (λ s, P (messages s)) (modify f).
Proof. intros Hf. apply keeps_modify. intros s. by rewrite Hf. Qed.

Lemma load_data_messages P : keeps (λ s, P (messages s)) load_data.
Proof.
  unfold load_data. keeps_split; by apply keeps_messages.
Qed.

Lemma open_vector_db_messages P : keeps (λ s, P (messages s)) open_vector_db.
Proof. unfold open_vector_db. keeps_split. apply load_data_messages. Qed.

Lemma open_messages s r s1 o : open_vector_db s = (r, s1, o) → messages s1 = messages s.
Proof.
  intros Ho. pose proof (open_vector_db_messages (λ m, m = messages s) s eq_refl) as H.
  cbv beta in H. by rewrite Ho in H.
Qed.

Definition user_msg (q : text) : message := {| msg_role := User; content := q |}.
Definition assistant_msg (a : text) : message := {| msg_role := Assistant; content := a |}.

Lemma turns_user q : turns 1 [user_msg q].
Proof. repeat constructor. Qed.

Lemma turns_pair q a : turns 0 [user_msg q; assistant_msg a].
Proof. repeat constructor. Qed.

(** One chat input, on every path. *)
Lemma handle_input_run vdb q s :
  q ≠ [] →
  handle_input vdb (Some q) s =
  match answer vdb q with
  | Ok a => (Done (), set_messages (default [] (messages s) ++ [user_msg q; assistant_msg a]) s,
             [UiChat User; UiWrite q; UiChat Assistant; UiWrite a])
  | Raise e => (Raised e, set_messages (default [] (messages s) ++ [user_msg q]) s,
                [UiChat User; UiWrite q; UiChat Assistant])
  end.
Proof.
  intros Hq. unfold handle_input, append_message. rewrite bool_decide_false by done.
  unfold mbind, M_bind, gets, modify, emit, emit_all, lift. cbn.
  destruct (answer vdb q); cbn; [|done]. by rewrite <- app_assoc.
Qed.

(** No input, or an empty one: nothing happens. *)
Lemma handle_input_idle vdb inp s :
  (∀ q, inp = Some q → q = []) → handle_input vdb inp s = (Done (), s, []).
Proof.
  destruct inp as [q|]; [|done]. intros Hq. rewrite (Hq q eq_refl).
  unfold handle_input. by rewrite bool_decide_true.
Qed.

Definition page_head : list ui :=
  [UiPageConfig ⟪"University Bot"⟫; UiTitle; UiCaption; UiHeader; UiSuccess ⟪"API Key Accepted!"⟫].


(** A run past the key gate, by how opening the store ends. *)
Lemma script_after_open inp s :
  api_key_input inp ≠ [] →
  script inp s =
  match open_vector_db (set_env (api_key_input inp) s) with
  | (Done vdb, s1, o1) =>
      let ms := default [greeting] (messages s1) in
      let '(r, s', o) := handle_input vdb (chat_input inp) (set_messages ms s1) in
      (r, s', page_head ++ o1 ++ chat_ui ms ++ o)
  | (Stopped, s1, o1) => (Stopped, s1, page_head ++ o1)
  | (Raised e, s1, o1) => (Raised e, s1, page_head ++ o1)
  end.
Proof.
  intros Hk. unfold script. unfold mbind at 1 2 3 4, M_bind at 1 2 3 4.
  cbn [emit emit_all]. rewrite (sidebar_ok _ s Hk). cbn.
  unfold mbind at 1, M_bind at 1.
  destruct (open_vector_db _) as [[[vdb| |e] s1] o1]; cbn; [|done..].
  unfold init_messages, show_history, mbind, M_bind, gets, emit_all. cbn.
  destruct (messages s1) eqn:E; cbn.
  - assert (set_messages l s1 = s1) as -> by (unfold set_messages; cbn; rewrite <- E; by destruct s1).
    destruct (handle_input vdb (chat_input inp) _) as [[r s'] o]. by rewrite E.
  - destruct (handle_input vdb (chat_input inp) _) as [[r s'] o]. by rewrite <- ?app_assoc.
Qed.

Lemma open_db_present s vdb : db_dir s = Some vdb → open_vector_db s = (Done vdb, s, []).
Proof. intros Hdb. unfold open_vector_db, mbind, M_bind, gets. cbn. by rewrite Hdb. Qed.

Lemma open_db_cached s c :
  db_dir s = None → cache s = Some c → open_vector_db s = (Done c, s, []).
Proof.
  intros Hdb Hc. unfold open_vector_db, load_data, mbind, M_bind, gets. cbn.
  by rewrite Hdb, Hc.
Qed.

(** A chat input on a history [ms], once the store [vdb] is open. *)
Lemma script_turn inp s vdb ms q :
  api_key_input inp ≠ [] →
  open_vector_db (set_env (api_key_input inp) s) = (Done vdb, set_env (api_key_input inp) s, []) →
  messages s = Some ms → chat_input inp = Some q → q ≠ [] →
  script inp s =
  match answer vdb q with
  | Ok a => (Done (), set_messages (ms ++ [user_msg q; assistant_msg a]) (set_env (api_key_input inp) s),
             page_head ++ chat_ui ms ++ [UiChat User; UiWrite q; UiChat Assistant; UiWrite a])
  | Raise e => (Raised e, set_messages (ms ++ [user_msg q]) (set_env (api_key_input inp) s),
                page_head ++ chat_ui ms ++ [UiChat User; UiWrite q; UiChat Assistant])
  end.
Proof.
  intros Hk Hopen Hms Hin Hq. rewrite (script_after_open _ _ Hk), Hopen. cbv beta iota zeta.
  change (messages (set_env (api_key_input inp) s)) with (messages s). rewrite Hms, Hin.
  unfold default, id. cbv beta iota.
  assert (set_messages ms (set_env (api_key_input inp) s) = set_env (api_key_input inp) s)
    as -> by (unfold set_messages, set_env; cbn; by rewrite Hms).
  rewrite handle_input_run by done.
  change (messages (set_env (api_key_input inp) s)) with (messages s). rewrite Hms.
  by destruct (answer vdb q).
Qed.

(** Runs leave [DB_PATH] and the cache alone once the store exists. *)
Lemma script_store_frame inp vdb c :
  keeps (λ s, db_dir s = Some vdb ∧ cache s = c) (script inp).
Proof.
  unfold script, sidebar, init_messages, show_history, handle_input, append_message.
  keeps_split; try (apply keeps_modify; by intros s' ?).
  intros s' [Hdb Hc]. by rewrite (open_db_present s' vdb Hdb).
Qed.

Definition spinner : ui := UiSpinner ⟪"Processing University Manuals..."⟫.

(** The body of [load_data] on a readable corpus. *)
Lemma load_data_build s c docs :
  cache s = None → data_dir s = Some c → load_corpus c = Ok docs →
  load_data s =
  match from_documents (split_documents docs) with
  | (p, Ok st) => (Done st, set_cache st (set_db p s), [spinner])
  | (p, Raise e) => (Raised e, set_db p s, [spinner])
  end.
Proof.
  intros Hc Hd Hl. unfold load_data, mbind, M_bind, gets, lift, modify. cbn.
  rewrite Hc, Hd, Hl. cbn. destruct (from_documents _) as [p [st|e]]; reflexivity.
Qed.

Lemma handle_input_frame vdb inp x y :
  keeps (λ s, db_dir s = x ∧ cache s = y) (handle_input vdb inp).
Proof.
  unfold handle_input, append_message. keeps_split; apply keeps_modify; by intros s' ?.
Qed.

Lemma after_open_frame inp s vdb s1 o1 :
  api_key_input inp ≠ [] →
  open_vector_db (set_env (api_key_input inp) s) = (Done vdb, s1, o1) →
  db_dir (run_state inp s) = db_dir s1 ∧ cache (run_state inp s) = cache s1.
Proof.
  intros Hk Hopen. unfold run_state. rewrite (script_after_open _ _ Hk), Hopen. cbv zeta.
  pose proof (handle_input_frame vdb (chat_input inp) (db_dir s1) (cache s1)
                (set_messages (default [greeting] (messages s1)) s1) (conj eq_refl eq_refl)) as Hf.
  destruct (handle_input _ _ _) as [[r s'] o]. exact Hf.
Qed.

(** ** The session as the specification describes it *)

(** The store a run answers from: the one persisted in [DB_PATH], else
    the one [st.cache_resource] holds. *)
Definition current_store (s : state) : option store :=
  match db_dir s with Some v => Some v | None => cache s end.

(** What one run may do to the history, given the chain [chain] of the
    store it answers from and how the run ended: leave it; greet a new
    session; append a question and the chain's answer to it, the run
    ending normally; or append a question alone, when the chain raised
    and the run ended with that exception. *)
Inductive session_run (chain : text → result app_error text)
    : exit unit → relation (option (list message)) :=
| run_idle r h : session_run chain r h h
| run_greet : session_run chain (Done ()) None (Some [greeting])
| run_answered h q a :
    q ≠ [] → chain q = Ok a →
    session_run chain (Done ()) h (Some (default [greeting] h ++ [user_msg q; assistant_msg a]))
| run_failed h q e :
    q ≠ [] → chain q = Raise e →
    session_run chain (Raised e) h (Some (default [greeting] h ++ [user_msg q])).

(** An opened store is the current store of the state the opening leaves. *)
Lemma open_current s vdb s1 o :
  open_vector_db s = (Done vdb, s1, o) → current_store s1 = Some vdb.
Proof.
  unfold open_vector_db, load_data, mbind, M_bind, gets. cbn.
  destruct (db_dir s) as [v|] eqn:Hdb; cbn.
  { intros [= -> <- _]. unfold current_store. by rewrite Hdb. }
  destruct (cache s) as [c|] eqn:Hc; cbn.
  { intros [= -> <- _]. unfold current_store. by rewrite Hdb. }
  destruct (data_dir s) as [c|]; cbn; [|done].
  destruct (load_corpus c) as [docs|e]; cbn; [|done].
  pose proof (from_documents_persists (split_documents docs)) as Hp.
  destruct (from_documents (split_documents docs)) as [p [st|e]]; cbn; [|done].
  intros [= -> <- _]. cbn in Hp. unfold current_store. cbn. by rewrite (Hp _ eq_refl).
Qed.

(** The key gate stops the run before anything else happens. *)
Lemma script_no_key inp s :
  api_key_input inp = [] →
  script inp s = (Stopped, s, [UiPageConfig ⟪"University Bot"⟫; UiTitle; UiCaption; UiHeader;
                               UiWarning ⟪"Please enter your Mistral API key to start."⟫]).
Proof.
  intros Hk. unfold script. rewrite Hk. unfold mbind at 1 2 3 4, M_bind at 1 2 3 4.
  cbn [emit emit_all]. by rewrite sidebar_stop.
Qed.

(** Every run either ends abnormally with the history untouched, or
    moves the history by a [session_run] of the chain of the store it
    leaves current. *)
Lemma script_session inp s :
  let '(r, s', _) := script inp s in
  (r ≠ Done () ∧ messages s' = messages s) ∨
  ∃ vdb, current_store s' = Some vdb ∧ session_run (answer vdb) r (messages s) (messages s').
Proof.
  destruct (decide (api_key_input inp = [])) as [Hk|Hk].
  { rewrite (script_no_key _ _ Hk). left. split; [discriminate|done]. }
  rewrite (script_after_open _ _ Hk).
  destruct (open_vector_db (set_env (api_key_input inp) s)) as [[[vdb| |e] s1] o1] eqn:Ho;
    pose proof (open_messages _ _ _ _ Ho) as Hm; change (messages (set_env _ s)) with (messages s) in Hm;
    [|by left; split; [discriminate|]..].
  pose proof (open_current _ _ _ _ Ho) as Hcur. cbv zeta.
  destruct (chat_input inp) as [q|]; [destruct (decide (q = [])) as [->|Hq]|].
  - rewrite handle_input_idle by naive_solver. cbv beta iota. right. exists vdb.
    split; [exact Hcur|]. cbn [messages set_messages]. rewrite Hm.
    destruct (messages s); [apply run_idle|apply run_greet].
  - rewrite handle_input_run by done.
    destruct (answer vdb q) as [a|e] eqn:Ha; cbv beta iota; right; exists vdb;
      (split; [exact Hcur|]); cbn [messages set_messages default]; rewrite Hm;
      [by apply run_answered|by apply run_failed].
  - rewrite handle_input_idle by naive_solver. cbv beta iota. right. exists vdb.
    split; [exact Hcur|]. cbn [messages set_messages]. rewrite Hm.
    destruct (messages s); [apply run_idle|apply run_greet].
Qed.

(** The histories a fresh session can reach, when [n] runs raised: the
    greeting, then turns of which at most [n] have no answer. *)
Definition history_wf (n : nat) (h : option (list message)) : Prop :=
  ∀ ms, h = Some ms → ∃ ts k, ms = greeting :: ts ∧ turns k ts ∧ k ≤ n.

Lemma history_wf_mono n n' h : n ≤ n' → history_wf n h → history_wf n' h.
Proof. intros Hn H ms Hms. destruct (H ms Hms) as (ts & k & ? & ? & ?). exists ts, k. naive_solver lia. Qed.

Lemma session_run_wf chain r h h' n :
  session_run chain r h h' → history_wf n h → history_wf (n + raised_count (Some r)) h'.
Proof.
  intros Hr Hh. destruct Hr as [r h| |h q a _ _|h q e _ _].
  - apply (history_wf_mono n); [lia|done].
  - intros ms [= <-]. exists [], 0. split; [done|]. split; [constructor|lia].
  - intros ms [= <-]. cbn [raised_count]. destruct h as [ms0|]; cbn [default].
    + destruct (Hh ms0 eq_refl) as (ts & k & -> & Hts & Hk).
      exists (ts ++ [user_msg q; assistant_msg a]), (k + 0).
      split; [done|]. split; [apply turns_app, turns_pair; done|lia].
    + exists [user_msg q; assistant_msg a], 0. split; [done|]. split; [apply turns_pair|lia].
  - intros ms [= <-]. cbn [raised_count]. destruct h as [ms0|]; cbn [default].
    + destruct (Hh ms0 eq_refl) as (ts & k & -> & Hts & Hk).
      exists (ts ++ [user_msg q]), (k + 1).
      split; [done|]. split; [apply turns_app, turns_user; done|lia].
    + exists [user_msg q], 1. split; [done|]. split; [apply turns_user|lia].
Qed.

Lemma lstep_wf l s s' n :
  lstep l s s' → history_wf n (messages s) → history_wf (n + raised_count l) (messages s').
Proof.
  intros Hl Hh. destruct Hl as [inp s| |].
  - pose proof (script_session inp s) as Hs. unfold run_state.
    destruct (script inp s) as [[r s'] o]. cbn [fst snd] in *.
    destruct Hs as [[_ ->]|(vdb & _ & Hr)]; [apply (history_wf_mono n); [lia|done]|].
    by eapply session_run_wf.
  - apply (history_wf_mono n); [lia|done].
  - apply (history_wf_mono n); [lia|done].
Qed.

(** ** Progress *)



(** ** Properties of a run *)

(** [C11] Without an API key a run stops after the warning: the state is
    unchanged, so no store is built or opened, no history is created and
    no service is called. *)
Theorem script_gate inp s :
  api_key_input inp = [] →
  script inp s = (Stopped, s, [UiPageConfig ⟪"University Bot"⟫; UiTitle; UiCaption; UiHeader;
                               UiWarning ⟪"Please enter your Mistral API key to start."⟫]).
Proof. apply script_no_key. Qed.

(** [C9] A question answered: with a key and the persisted store, the
    run sets the key in the environment, appends the user's turn and then
    the answer of the chain to the history, and draws the history, the
    question and the answer; the store and the cache are untouched. *)
Theorem answered_turn inp s vdb ms q a :
  api_key_input inp ≠ [] → db_dir s = Some vdb → messages s = Some ms →
  chat_input inp = Some q → q ≠ [] → answer vdb q = Ok a →
  script inp s =
  (Done (), set_messages (ms ++ [user_msg q; assistant_msg a]) (set_env (api_key_input inp) s),
   page_head ++ chat_ui ms ++ [UiChat User; UiWrite q; UiChat Assistant; UiWrite a]).
Proof.
  intros Hk Hdb Hms Hin Hq Ha.
  rewrite (script_turn _ _ vdb ms q Hk); [by rewrite Ha|by apply open_db_present|done..].
Qed.

(** [C10] A question whose chain raises: the exception escapes the run
    after the user's turn was appended and the assistant's bubble was
    opened, so the history keeps a question with no answer and the page
    an empty assistant bubble. *)
Theorem failed_turn inp s vdb ms q e :
  api_key_input inp ≠ [] → db_dir s = Some vdb → messages s = Some ms →
  chat_input inp = Some q → q ≠ [] → answer vdb q = Raise e →
  script inp s =
  (Raised e, set_messages (ms ++ [user_msg q]) (set_env (api_key_input inp) s),
   page_head ++ chat_ui ms ++ [UiChat User; UiWrite q; UiChat Assistant]).
Proof.
  intros Hk Hdb Hms Hin Hq Ha.
  rewrite (script_turn _ _ vdb ms q Hk); [by rewrite Ha|by apply open_db_present|done..].
Qed.

(** [C6] In every state reachable from a fresh session, by runs and by
    changes of the directories, the history is absent or is the greeting
    followed by user turns, each followed by its answer or standing
    alone; and there are no more unanswered turns than runs that ended
    with an exception. *)
Theorem history_invariant s0 n s :
  initial s0 → reach s0 n s →
  ∀ ms, messages s = Some ms → ∃ ts k, ms = greeting :: ts ∧ turns k ts ∧ k ≤ n.
Proof.
  intros (_ & _ & Hm) Hr. induction Hr as [|n s1 l s2 _ IH Hl].
  - intros ms Hms. by rewrite Hm in Hms.
  - by eapply lstep_wf.
Qed.

(** [C20] Once [DB_PATH] holds a store, no run rebuilds it or touches the
    cache, whatever the corpus has become since: the store in use stays
    the persisted one. *)
Theorem store_never_rebuilt inp s vdb :
  db_dir s = Some vdb →
  db_dir (run_state inp s) = Some vdb ∧ cache (run_state inp s) = cache s.
Proof. intros Hdb. by apply script_store_frame. Qed.

(** [C23] Deleting [DB_PATH] while the server runs does not force a
    rebuild: a run answers from the store cached by [st.cache_resource]
    and leaves [DB_PATH] absent. *)
Theorem deleted_store_uses_cache inp s c ms q a :
  api_key_input inp ≠ [] → db_dir s = None → cache s = Some c → messages s = Some ms →
  chat_input inp = Some q → q ≠ [] → answer c q = Ok a →
  script inp s =
  (Done (), set_messages (ms ++ [user_msg q; assistant_msg a]) (set_env (api_key_input inp) s),
   page_head ++ chat_ui ms ++ [UiChat User; UiWrite q; UiChat Assistant; UiWrite a]).
Proof.
  intros Hk Hdb Hc Hms Hin Hq Ha.
  rewrite (script_turn _ _ c ms q Hk); [by rewrite Ha|by apply open_db_cached|done..].
Qed.

(** [C21] The first build: with a key, no store and no cache, a run
    loads and splits the corpus, builds the store and persists it to
    [DB_PATH]; the cache holds the same store. *)
Theorem first_build inp s c docs st :
  api_key_input inp ≠ [] → db_dir s = None → cache s = None → data_dir s = Some c →
  load_corpus c = Ok docs → (from_documents (split_documents docs)).2 = Ok st →
  db_dir (run_state inp s) = Some st ∧ cache (run_state inp s) = Some st.
Proof.
  intros Hk Hdb Hc Hd Hl Hb. pose proof (from_documents_persists _ _ Hb) as Hp.
  set (s0 := set_env (api_key_input inp) s).
  assert (open_vector_db s0 = (Done st, set_cache st (set_db (Some st) s0), [spinner])) as Hopen.
  { unfold open_vector_db, mbind, M_bind, gets. cbn. rewrite Hdb.
    rewrite (load_data_build _ c docs) by done.
    destruct (from_documents _) as [p r]. simpl in Hb, Hp. by subst. }
  by destruct (after_open_frame _ _ _ _ _ Hk Hopen) as [-> ->].
Qed.

(** [C22] A build that raises after [DB_PATH] was written: the run ends
    with the exception and caches nothing, but [DB_PATH] now holds what
    the failed call left, so later runs open it instead of building. *)
Theorem failed_build_persists inp s c docs p e :
  api_key_input inp ≠ [] → db_dir s = None → cache s = None → data_dir s = Some c →
  load_corpus c = Ok docs → from_documents (split_documents docs) = (Some p, Raise e) →
  script inp s = (Raised e, set_db (Some p) (set_env (api_key_input inp) s), page_head ++ [spinner]) ∧
  open_vector_db (set_db (Some p) (set_env (api_key_input inp) s)) =
    (Done p, set_db (Some p) (set_env (api_key_input inp) s), []).
Proof.
  intros Hk Hdb Hc Hd Hl Hb. split; [|by apply open_db_present].
  rewrite (script_after_open _ _ Hk).
  unfold open_vector_db at 1, mbind at 1, M_bind at 1, gets. cbn. rewrite Hdb.
  rewrite (load_data_build _ c docs) by done. rewrite Hb. cbn.
  by rewrite ?app_nil_r.
Qed.

(** [C24] Without [data_clean/], with no store and no cache, a run past
    the key gate shows the error and stops; only the key was set. *)
Theorem data_missing_stops inp s :
  api_key_input inp ≠ [] → db_dir s = None → cache s = None → data_dir s = None →
  script inp s =
  (Stopped, set_env (api_key_input inp) s,
   page_head ++ [UiError ⟪"Data not found. Please run clean_data.py first."⟫]).
Proof.
  intros Hk Hdb Hc Hd. rewrite (script_after_open _ _ Hk).
  unfold open_vector_db, load_data, mbind, M_bind, gets, emit, emit_all, stop. cbn.
  rewrite Hdb. cbn. rewrite Hc. cbn. by rewrite Hd.
Qed.

(** [C7] Refinement of the session, run by run: a run that ends
    normally or raises in the chain moves [st.session_state.messages] by
    a step of [session_run] for the chain of the store it leaves current
    (the store it answered from): the greeting, a question with the
    chain's own answer when the run ended normally, or a question alone
    when the chain raised and the exception ended the run; any other
    run that does not end normally leaves the history as it was. *)
Theorem run_refinement inp s :
  let '(r, s', _) := script inp s in
  (r ≠ Done () ∧ messages s' = messages s) ∨
  ∃ vdb, current_store s' = Some vdb ∧ session_run (answer vdb) r (messages s) (messages s').
Proof. apply script_session. Qed.


End Script.

End App.
