(* ===== verification/AppRuns.v ===== *)
(** * Runs of the script on concrete services

    Every theorem of [App] with a hypothesis, applied to a run of the
    script on concrete services: the services of [SpecServices] over a
    toy embedding and a toy chat model, a cleaned corpus of one file, and
    the states a session goes through (fresh, with the persisted store,
    with the cached store only, without [data_clean/]).  The runs are
    evaluated by [vm_compute]. *)

From stdpp Require Import gmap.
From Stdlib Require Import ZArith.
From S2P Require Import PyPrelude Prompt Services VectorStore SpecServices App.
Import Prompt Services VectorStore SpecServices App.
Local Open Scope py_scope.

Module AppRuns.
Import App.

(** ** Concrete services and states

    The services of [SpecServices] over a toy embedding (a text's length)
    and a chat model that answers with the template's fallback sentence,
    or that fails; and the Chroma-like services over an embedding that
    fails. *)

Definition toy_embed (t : text) : result app_error vec := Ok [Z.of_nat (length t)].
Definition toy_llm (_ : list message) : result app_error text := Ok fallback_answer.
Definition failing_llm (_ : list message) : result app_error text := Raise CompletionError.
Definition failing_embed (_ : text) : result app_error vec := Raise EmbeddingError.

Definition demo : Services := spec_services toy_embed toy_llm.
Definition demo_failing_chat : Services := spec_services toy_embed failing_llm.
Definition demo_chroma : Services := chroma_services failing_embed toy_llm.

Definition demo_corpus : corpus := <["rules.txt" := ⟪"Attendance is mandatory."⟫]> ∅.

Definition demo_input : input := {| api_key_input := ⟪"key"⟫; chat_input := Some ⟪"hi"⟫ |}.
Definition demo_no_key : input := {| api_key_input := []; chat_input := Some ⟪"hi"⟫ |}.

(** A fresh session on a cleaned corpus, before the store is built. *)
Definition fresh (SV : Services) : state :=
  {| data_dir := Some demo_corpus; db_dir := None; env_key := None; cache := None;
     messages := None |}.

(** A session that has shown the greeting, on a persisted store. *)
Definition opened (SV : Services) (vdb : store) : state :=
  {| data_dir := Some demo_corpus; db_dir := Some vdb; env_key := None; cache := None;
     messages := Some [greeting] |}.

(** The store answers from the cache alone: no corpus, no [DB_PATH]. *)
Definition cached_only (SV : Services) (c : store) : state :=
  {| data_dir := None; db_dir := None; env_key := None; cache := Some c;
     messages := Some [greeting] |}.

(** No [data_clean/], no store, no cache. *)
Definition no_data (SV : Services) : state :=
  {| data_dir := None; db_dir := None; env_key := None; cache := None; messages := None |}.

(** The one document of [demo_corpus], as the loader returns it. *)
Definition demo_doc : document :=
  {| doc_id := None; metadata := [(⟪"source"⟫, ⟪"data_clean/rules.txt"⟫)];
     page_content := ⟪"Attendance is mandatory."⟫ |}.

(** Its one chunk, embedded by [toy_embed]. *)
Definition demo_store : list record := [{| rec_doc := demo_doc; rec_vec := [24%Z] |}].

(** ** The theorems of [App] on these runs *)

Lemma script_gate_witness :
  api_key_input demo_no_key = [] ∧
  @script demo demo_no_key (fresh demo) =
  (Stopped, fresh demo, [UiPageConfig ⟪"University Bot"⟫; UiTitle; UiCaption; UiHeader;
                    UiWarning ⟪"Please enter your Mistral API key to start."⟫]).
Proof. split; [reflexivity|]. apply script_gate. reflexivity. Defined.

Lemma answered_turn_witness :
  let a := fallback_answer in
  api_key_input demo_input ≠ [] ∧ @db_dir demo (opened demo []) = Some [] ∧
  messages (opened demo []) = Some [greeting] ∧ chat_input demo_input = Some ⟪"hi"⟫ ∧
  ⟪"hi"⟫ ≠ [] ∧ @answer demo [] ⟪"hi"⟫ = Ok a ∧
  @script demo demo_input (opened demo []) =
  (Done (), set_messages ([greeting] ++ [user_msg ⟪"hi"⟫; assistant_msg a])
                         (set_env ⟪"key"⟫ (opened demo [])),
   page_head ++ chat_ui [greeting] ++ [UiChat User; UiWrite ⟪"hi"⟫; UiChat Assistant; UiWrite a]).
Proof.
  intros a. assert (@answer demo [] ⟪"hi"⟫ = Ok a) as Ha by (vm_compute; reflexivity).
  split; [discriminate|]. do 2 (split; [reflexivity|]). split; [reflexivity|].
  split; [discriminate|]. split; [exact Ha|].
  apply (answered_turn (SV:=demo) demo_input (opened demo []) [] [greeting] ⟪"hi"⟫ a);
    [discriminate|reflexivity|reflexivity|reflexivity|discriminate|exact Ha].
Defined.

Lemma failed_turn_witness :
  api_key_input demo_input ≠ [] ∧ @db_dir demo_failing_chat (opened demo_failing_chat []) = Some [] ∧
  messages (opened demo_failing_chat []) = Some [greeting] ∧ chat_input demo_input = Some ⟪"hi"⟫ ∧
  ⟪"hi"⟫ ≠ [] ∧ @answer demo_failing_chat [] ⟪"hi"⟫ = Raise CompletionError ∧
  @script demo_failing_chat demo_input (opened demo_failing_chat []) =
  (Raised CompletionError,
   set_messages ([greeting] ++ [user_msg ⟪"hi"⟫]) (set_env ⟪"key"⟫ (opened demo_failing_chat [])),
   page_head ++ chat_ui [greeting] ++ [UiChat User; UiWrite ⟪"hi"⟫; UiChat Assistant]).
Proof.
  assert (@answer demo_failing_chat [] ⟪"hi"⟫ = Raise CompletionError) as Ha
    by (vm_compute; reflexivity).
  split; [discriminate|]. do 2 (split; [reflexivity|]). split; [reflexivity|].
  split; [discriminate|]. split; [exact Ha|].
  apply (failed_turn (SV:=demo_failing_chat) demo_input _ [] [greeting] ⟪"hi"⟫);
    [discriminate|reflexivity|reflexivity|reflexivity|discriminate|exact Ha].
Defined.

Lemma history_invariant_witness :
  let s := @run_state demo_failing_chat demo_input (fresh demo_failing_chat) in
  let ms := [greeting; user_msg ⟪"hi"⟫] in
  initial (fresh demo_failing_chat) ∧ reach (fresh demo_failing_chat) 1 s ∧
  messages s = Some ms ∧ ∃ ts k, ms = greeting :: ts ∧ turns k ts ∧ k ≤ 1.
Proof.
  intros s ms. assert (messages s = Some ms) as Hms by (vm_compute; reflexivity).
  assert (reach (fresh demo_failing_chat) 1 s) as Hr.
  { assert (raised_count (Some (@script demo_failing_chat demo_input (fresh demo_failing_chat)).1.1) = 1)
      as E by (vm_compute; reflexivity).
    pose proof (reach_step _ 0 _ _ _ (reach_refl _)
                  (lstep_run (SV:=demo_failing_chat) demo_input (fresh demo_failing_chat))) as H.
    rewrite E in H. exact H. }
  assert (initial (fresh demo_failing_chat)) as Hi by (split; [reflexivity|split; reflexivity]).
  split; [exact Hi|]. split; [exact Hr|]. split; [exact Hms|].
  exact (history_invariant (SV:=demo_failing_chat) _ 1 s Hi Hr ms Hms).
Defined.

Lemma store_never_rebuilt_witness :
  @db_dir demo (opened demo demo_store) = Some demo_store ∧
  db_dir (@run_state demo demo_input (opened demo demo_store)) = Some demo_store ∧
  cache (@run_state demo demo_input (opened demo demo_store)) = cache (opened demo demo_store).
Proof.
  split; [reflexivity|]. apply (store_never_rebuilt (SV:=demo)). reflexivity.
Defined.

Lemma deleted_store_uses_cache_witness :
  let s := cached_only demo demo_store in
  let a := fallback_answer in
  api_key_input demo_input ≠ [] ∧ db_dir s = None ∧ cache s = Some demo_store ∧
  messages s = Some [greeting] ∧ chat_input demo_input = Some ⟪"hi"⟫ ∧ ⟪"hi"⟫ ≠ [] ∧
  @answer demo demo_store ⟪"hi"⟫ = Ok a ∧
  @script demo demo_input s =
  (Done (), set_messages ([greeting] ++ [user_msg ⟪"hi"⟫; assistant_msg a]) (set_env ⟪"key"⟫ s),
   page_head ++ chat_ui [greeting] ++ [UiChat User; UiWrite ⟪"hi"⟫; UiChat Assistant; UiWrite a]).
Proof.
  intros s a. assert (@answer demo demo_store ⟪"hi"⟫ = Ok a) as Ha by (vm_compute; reflexivity).
  split; [discriminate|]. do 3 (split; [reflexivity|]). split; [reflexivity|].
  split; [discriminate|]. split; [exact Ha|].
  apply (deleted_store_uses_cache (SV:=demo) demo_input s demo_store [greeting] ⟪"hi"⟫ a);
    [discriminate|reflexivity|reflexivity|reflexivity|reflexivity|discriminate|exact Ha].
Defined.

Lemma first_build_witness :
  let s := fresh demo in
  api_key_input demo_input ≠ [] ∧ db_dir s = None ∧ cache s = None ∧
  data_dir s = Some demo_corpus ∧ @load_corpus demo demo_corpus = Ok [demo_doc] ∧
  (@from_documents demo (@split_documents demo [demo_doc])).2 = Ok demo_store ∧
  db_dir (@run_state demo demo_input s) = Some demo_store ∧
  cache (@run_state demo demo_input s) = Some demo_store.
Proof.
  intros s.
  assert (@load_corpus demo demo_corpus = Ok [demo_doc]) as Hl by (vm_compute; reflexivity).
  assert ((@from_documents demo (@split_documents demo [demo_doc])).2 = Ok demo_store) as Hb
    by (vm_compute; reflexivity).
  split; [discriminate|]. do 3 (split; [reflexivity|]). split; [exact Hl|]. split; [exact Hb|].
  apply (first_build (SV:=demo) demo_input s demo_corpus [demo_doc] demo_store);
    [discriminate|reflexivity|reflexivity|reflexivity|exact Hl|exact Hb].
Defined.

Lemma failed_build_persists_witness :
  let s := fresh demo_chroma in
  let s' := @set_db demo_chroma (Some []) (set_env ⟪"key"⟫ s) in
  api_key_input demo_input ≠ [] ∧ db_dir s = None ∧ cache s = None ∧
  data_dir s = Some demo_corpus ∧ @load_corpus demo_chroma demo_corpus = Ok [demo_doc] ∧
  @from_documents demo_chroma (@split_documents demo_chroma [demo_doc]) = (Some [], Raise EmbeddingError) ∧
  @script demo_chroma demo_input s = (Raised EmbeddingError, s', page_head ++ [spinner]) ∧
  @open_vector_db demo_chroma s' = (Done [], s', []).
Proof.
  intros s s'.
  assert (@load_corpus demo_chroma demo_corpus = Ok [demo_doc]) as Hl by (vm_compute; reflexivity).
  assert (@from_documents demo_chroma (@split_documents demo_chroma [demo_doc])
          = (Some [], Raise EmbeddingError)) as Hb by (vm_compute; reflexivity).
  split; [discriminate|]. do 3 (split; [reflexivity|]). split; [exact Hl|]. split; [exact Hb|].
  apply (failed_build_persists (SV:=demo_chroma) demo_input s demo_corpus [demo_doc] [] EmbeddingError);
    [discriminate|reflexivity|reflexivity|reflexivity|exact Hl|exact Hb].
Defined.

Lemma data_missing_stops_witness :
  api_key_input demo_input ≠ [] ∧ db_dir (no_data demo) = None ∧ cache (no_data demo) = None ∧
  data_dir (no_data demo) = None ∧
  @script demo demo_input (no_data demo) =
  (Stopped, set_env ⟪"key"⟫ (no_data demo),
   page_head ++ [UiError ⟪"Data not found. Please run clean_data.py first."⟫]).
Proof.
  split; [discriminate|]. do 3 (split; [reflexivity|]).
  apply (data_missing_stops (SV:=demo)); [discriminate|reflexivity..].
Defined.



End AppRuns.
